(** * ElevenLabsTTSWrapper: a shallow embedding of
      [aeneas/ttswrappers/elevenlabsttswrapper.py]

    The wrapper posts a text to the Eleven Labs endpoint inside a bounded
    retry loop, optionally saves the response as a WAVE file, shuffles the
    response through two temporary files and an [ffmpeg] child process, and
    builds the tuple it returns.

    The embedding keeps the effects of the source explicit: the HTTP
    provider, the temporary-name generator and the child process are
    oracles of an environment; the file system, the trace of observable
    events and the oracle counters are threaded through a state-and-error
    monad.  Logging ([self.log], [print]) and the unused [request_id] are
    left out: they change neither the result nor the files.

    A Python text is held as the string of the bytes of its UTF-8 encoding:
    [String.length] is the size of that encoding, [py_len] the number of
    characters [len] counts.  A Python [float] is a binary64 number of
    [SpecFloat]. *)

From Stdlib Require Import ZArith QArith Lia List.
From Stdlib Require Import Ascii String DecimalString.
From Stdlib.Strings Require Import Byte.
From Stdlib.Floats Require Import SpecFloat.
From stdpp Require Import gmap strings list fin_maps sorting.

Import ListNotations.
Local Open Scope string_scope.
Local Open Scope list_scope.
Local Open Scope Z_scope.

(** ** Bytes and strings *)

Module Bytes.

(** A byte of a Python [bytes] object, read as an unsigned integer. *)
Definition to_Z (b : byte) : Z := Z.of_N (Byte.to_N b).

(** The byte holding [z mod 256]. *)
Definition of_Z (z : Z) : byte :=
  match Byte.of_N (Z.to_N (z mod 256)) with
  | Some b => b
  | None => x00
  end.

(** [struct.pack('<H', z)] and [struct.pack('<L', z)]: little-endian
    fields of two and four bytes. *)
Definition le16 (z : Z) : list byte :=
  [of_Z z; of_Z (Z.shiftr z 8)].

Definition le32 (z : Z) : list byte :=
  [of_Z z; of_Z (Z.shiftr z 8); of_Z (Z.shiftr z 16); of_Z (Z.shiftr z 24)].

(** The bytes of the UTF-8 encoding of a text. *)
Definition of_string (s : string) : list byte := list_byte_of_string s.

(** A little-endian pair of bytes read as a signed 16-bit integer
    ([numpy.int16] on a little-endian host). *)
Definition int16_of (lo hi : byte) : Z :=
  let u := Z.lor (to_Z lo) (Z.shiftl (to_Z hi) 8) in
  if u <? 32768 then u else u - 65536.

End Bytes.

(** ** Texts and floats *)

(** A byte of the form 10xxxxxx continues a character begun before it. *)
Definition is_continuation (c : ascii) : bool :=
  (128 <=? N_of_ascii c)%N && (N_of_ascii c <? 192)%N.

(** [len(s)]: the number of characters of a text, one for every byte of its
    encoding that does not continue a character. *)
Fixpoint py_len (s : string) : nat :=
  match s with
  | EmptyString => 0%nat
  | String c s' => ((if is_continuation c then 0 else 1) + py_len s')%nat
  end.

(** A text of ASCII characters only. *)
Fixpoint is_ascii_text (s : string) : bool :=
  match s with
  | EmptyString => true
  | String c s' => (N_of_ascii c <? 128)%N && is_ascii_text s'
  end.

(** The binary64 numbers of Python's [float], with the operations the
    helper uses: the conversion of an integer, the correctly rounded
    quotient, and the exact value of a finite number. *)
Module Float.

Definition of_Z (z : Z) : spec_float := binary_normalize 53 1024 z 0 false.

Definition div (x y : spec_float) : spec_float := SFdiv 53 1024 x y.

Definition value (x : spec_float) : Q :=
  match x with
  | S754_finite s m e =>
      ((if s then -1 else 1) * inject_Z (Zpos m) * Qpower 2 e)%Q
  | _ => 0%Q
  end.

End Float.

(** ** Python values held by the runtime configuration *)

Inductive pyval : Type :=
| PyNone
| PyStr (s : string)
| PyInt (z : Z).

(** Decimal text of an integer: ["%d" % z] and [str(z)]. *)
Definition str_of_Z (z : Z) : string := NilZero.string_of_int (Z.to_int z).

(** [str(v)], which is also what ["%s" % v] inserts. *)
Definition py_str (v : pyval) : string :=
  match v with
  | PyNone => "None"
  | PyStr s => s
  | PyInt z => str_of_Z z
  end.

(** ** The standard-library pieces the wrapper calls *)

(** What [wave.open(path, "wb")], the three setters, [writeframes(data)] and
    [close()] leave in the file on a little-endian host: the 44-byte RIFF
    header of PCM data followed by the frames, unchanged. *)
Module Wave.

Record params : Type := { nchannels : Z; sampwidth : Z; framerate : Z }.

Definition header (p : params) (datalength : Z) : list byte :=
  Bytes.of_string "RIFF" ++ Bytes.le32 (36 + datalength) ++
  Bytes.of_string "WAVE" ++ Bytes.of_string "fmt " ++
  Bytes.le32 16 ++ Bytes.le16 1 ++
  Bytes.le16 (nchannels p) ++ Bytes.le32 (framerate p) ++
  Bytes.le32 (nchannels p * framerate p * sampwidth p) ++
  Bytes.le16 (nchannels p * sampwidth p) ++
  Bytes.le16 (sampwidth p * 8) ++
  Bytes.of_string "data" ++ Bytes.le32 datalength.

Definition file_bytes (p : params) (frames : list byte) : list byte :=
  header p (Z.of_nat (length frames)) ++ frames.

End Wave.

(** [numpy.fromstring(s, dtype=numpy.int16)] in binary mode: the bytes of
    [s] taken two at a time; [None] when a byte is left over. *)
Fixpoint int16_items (bs : list byte) : option (list Z) :=
  match bs with
  | [] => Some []
  | [_] => None
  | lo :: hi :: rest =>
      match int16_items rest with
      | Some zs => Some (Bytes.int16_of lo hi :: zs)
      | None => None
      end
  end.

(** [a.astype("float64") / 32768]: a 16-bit integer over a power of two is
    exact in binary64, so the quotient is the rational itself. *)
Definition normalize (zs : list Z) : list Q := map (fun z => z # 32768) zs.

(** ** Exceptions, requests, events *)

Inductive exn : Type :=
| ValueError (msg : string)
| OSError (msg : string)
| UnboundLocalError (name : string)
| OtherException (msg : string).

(** [str(exc)]: the message an exception carries; for an unbound local
    variable, the sentence Python 3 up to 3.10 makes about its name. *)
Definition exn_str (e : exn) : string :=
  match e with
  | ValueError msg => msg
  | OSError msg => msg
  | UnboundLocalError name =>
      ("local variable '" ++ name ++ "' referenced before assignment")%string
  | OtherException msg => msg
  end.

Definition is_OSError (e : exn) : bool :=
  match e with OSError _ => true | _ => false end.

(** The JSON body of the request:
    [{'text': ..., "voice_settings": {"stability": ..., "similarity_boost": ...}}]. *)
Record voice_settings : Type := { stability : string; similarity_boost : string }.

Record body : Type := { text : string; settings : voice_settings }.

(** The arguments of [requests.post(url, headers=..., json=...)]; the
    headers are a dict literal with two distinct keys, kept in order. *)
Record request : Type := {
  req_url : string;
  req_headers : list (string * pyval);
  req_json : body
}.

Record Response : Type := { status_code : Z; content : list byte }.

Inductive post_outcome : Type :=
| PostRaises (e : exn)
| PostReturns (r : Response).

Inductive proc_outcome : Type :=
| SpawnFails (msg : string)
| Exits (returncode : Z) (files_after : gmap string (list byte)).

Inductive event : Type :=
| Sleep (seconds : Q)
| Post (r : request)
| Popen (argv : list string).

(** ** Environment and state *)

(** What the call cannot decide: the provider's answer to the n-th POST,
    the stem [tempfile.mkstemp] picks for the n-th temporary file, and what
    a child process does to the files. *)
Record env : Type := {
  provider : nat -> request -> post_outcome;
  tmp_stem : nat -> string;
  child : list string -> gmap string (list byte) -> proc_outcome
}.

Record world : Type := {
  files : gmap string (list byte);
  trace : list event;
  posts : nat;
  tmps : nat
}.

Definition initial (fs : gmap string (list byte)) : world :=
  {| files := fs; trace := []; posts := 0; tmps := 0 |}.

Inductive outcome (A : Type) : Type :=
| Ok (a : A)
| Raise (e : exn)
| OutOfFuel.
Arguments Ok {A} a.
Arguments Raise {A} e.
Arguments OutOfFuel {A}.

(** ** The monad: reader of [env], state [world], errors [exn] *)

Definition M (A : Type) : Type := env -> world -> outcome A * world.

Definition ret {A} (a : A) : M A := fun _ w => (Ok a, w).

Definition bind {A B} (m : M A) (k : A -> M B) : M B :=
  fun e w =>
    match m e w with
    | (Ok a, w') => k a e w'
    | (Raise x, w') => (Raise x, w')
    | (OutOfFuel, w') => (OutOfFuel, w')
    end.

Definition raise {A} (x : exn) : M A := fun _ w => (Raise x, w).

Definition out_of_fuel {A} : M A := fun _ w => (OutOfFuel, w).

(** [try: m  except <class> as exc: h exc]. *)
Definition try_except {A} (m : M A) (catches : exn -> bool) (h : exn -> M A) : M A :=
  fun e w =>
    match m e w with
    | (Raise x, w') => if catches x then h x e w' else (Raise x, w')
    | r => r
    end.

Notation "'let*' x ':=' m 'in' k" := (bind m (fun x => k))
  (at level 10, x name, m at level 100, k at level 200).
Notation "'let*' ' pat ':=' m 'in' k" :=
  (bind m (fun x => match x with pat => k end))
  (at level 10, pat pattern, m at level 100, k at level 200).
Notation "'exec' m 'in' k" := (bind m (fun _ => k))
  (at level 10, m at level 100, k at level 200).

Definition emit (ev : event) : M unit :=
  fun _ w => (Ok tt, {| files := files w; trace := trace w ++ [ev];
                        posts := posts w; tmps := tmps w |}).

Definition set_files (fs : gmap string (list byte)) : M unit :=
  fun _ w => (Ok tt, {| files := fs; trace := trace w;
                        posts := posts w; tmps := tmps w |}).

Definition get_files : M (gmap string (list byte)) := fun _ w => (Ok (files w), w).

(** ** Effects *)

(** [time.sleep(seconds)]: a negative argument is refused. *)
Definition time_sleep (seconds : Q) : M unit :=
  if Qle_bool 0 seconds then emit (Sleep seconds)
  else raise (ValueError "sleep length must be non-negative").

(** [requests.post]: the next answer of the provider; the call is recorded
    whether it returns or raises. *)
Definition requests_post (r : request) : M Response :=
  fun e w =>
    let w' := {| files := files w; trace := trace w ++ [Post r];
                 posts := S (posts w); tmps := tmps w |} in
    match provider e (posts w) r with
    | PostReturns resp => (Ok resp, w')
    | PostRaises x => (Raise x, w')
    end.

(** Modelled from the spec: [log_exc] of [aeneas.logger.Loggable], which is
    not part of this file.  Called with a raise type, it logs the message
    and raises that exception: the error is fatal to the call and surfaces
    to the caller.  The raised exception carries the message, followed by
    [" : "] and the text of [exc] when an exception is handed in
    ([u"%s : %s" % (message, exc)]). *)
Definition log_exc {A} (message : string) (exc : option exn) (critical : bool)
    (raise_type : string -> exn) : M A :=
  raise (raise_type
           match exc with
           | Some x => (message ++ " : " ++ exn_str x)%string
           | None => message
           end).

(** Modelled from the spec: [tmp_file] of [aeneas.globalfunctions], which is
    not part of this file.  It creates an empty temporary file with a name of
    its own ending in the suffix, and returns a handler and the path. *)
Definition tmp_file (suffix : string) : M (nat * string) :=
  fun e w =>
    let path := (tmp_stem e (tmps w) ++ suffix)%string in
    (Ok (tmps w, path),
     {| files := <[path := []]> (files w); trace := trace w;
        posts := posts w; tmps := S (tmps w) |}).

(** [with open(path, "wb") as f: f.write(data)]. *)
Definition write_file (path : string) (data : list byte) : M unit :=
  let* fs := get_files in set_files (<[path := data]> fs).

(** [wave.open(path, "wb")], the setters, [writeframes], [close]. *)
Definition wave_write (path : string) (p : Wave.params) (frames : list byte) : M unit :=
  write_file path (Wave.file_bytes p frames).

(** [subprocess.Popen(argv, ...)] followed by [communicate()] and the three
    [close()]: an [OSError] when the program cannot be started, otherwise the
    child runs to its end and the exit status is in the process object. *)
Definition subprocess_run (argv : list string) : M Z :=
  exec emit (Popen argv) in
  let* fs := get_files in
  fun e w =>
    match child e argv fs with
    | SpawnFails msg => (Raise (OSError msg), w)
    | Exits rc fs' => (Ok rc, snd (set_files fs' e w))
    end.

(** [numpy.fromstring(s, dtype=numpy.int16)] on a text. *)
Definition numpy_fromstring_int16 (s : string) : M (list Z) :=
  match int16_items (Bytes.of_string s) with
  | Some zs => ret zs
  | None => raise (ValueError "string size must be a multiple of element size")
  end.

(** ** The runtime configuration

    The entries of [self.rconf] the helper reads.  The three string settings
    and the two provider parameters are Python values (an unset entry is
    [None]); the delay is a number of seconds, the attempt count an
    integer. *)
Record RuntimeConfiguration : Type := {
  ELEVEN_LABS_VOICE_ID : pyval;
  ELEVEN_LABS_API_KEY : pyval;
  ELEVEN_LABS_STABILITY : pyval;
  ELEVEN_LABS_SIMILARITY_BOOST : pyval;
  TTS_API_SLEEP : Q;
  TTS_API_RETRY_ATTEMPTS : Z
}.

(** ** Class constants of [ElevenLabsTTSWrapper] *)

Definition OUTPUT_AUDIO_FORMAT : string * Z * Z := ("pcm_s16le", 1, 16000).
Definition SAMPLE_FORMAT : string := "pcm".
Definition SAMPLE_RATE : Z := 16000.
Definition URL : string := "https://api.elevenlabs.io".
Definition END_POINT : string := "/v1/text-to-speech/".

(** [TimeValue(x)] of a float: the decimal number with exactly the value of
    the binary64 number [x], written here as that binary64 number
    ([Float.value] gives its value as a rational). *)
Definition TimeValue (x : spec_float) : spec_float := x.

(** The value the helper returns:
    [(True, (audio_length, audio_sample_rate, audio_format, audio_samples))]. *)
Definition synthesis : Type := (bool * (spec_float * Z * string * list Q))%type.

Definition audio_length_of (s : synthesis) : spec_float := s.2.1.1.1.
Definition audio_sample_rate_of (s : synthesis) : Z := s.2.1.1.2.
Definition audio_format_of (s : synthesis) : string := s.2.1.2.
Definition audio_samples_of (s : synthesis) : list Q := s.2.2.

Section Helper.

Variable rconf : RuntimeConfiguration.

Definition request_headers : list (string * pyval) :=
  [ ("xi-api-key", ELEVEN_LABS_API_KEY rconf);
    ("Accept", PyStr ("audio/x-wav;codec=pcm;bit=16;rate=" ++ str_of_Z SAMPLE_RATE)) ].

Definition request_url (voice_id : pyval) : string :=
  (URL ++ END_POINT ++ py_str voice_id)%string.

Definition request_of (url : string) (headers : list (string * pyval))
    (text : string) : request :=
  {| req_url := url;
     req_headers := headers;
     req_json :=
       {| text := text;
          settings :=
            {| stability := py_str (ELEVEN_LABS_STABILITY rconf);
               similarity_boost := py_str (ELEVEN_LABS_SIMILARITY_BOOST rconf) |} |} |}.

(** The [while attempts > 0] loop.  Every pass that does not leave the
    loop lowers [attempts] by one, so [Z.to_nat attempts] passes of fuel
    are never used up (lemma [post_loop_fuel]).  The result is the pair of
    the loop's two variables; [response] is unbound until the first POST
    has returned.  An exception of [requests.post] is handed to [log_exc]
    with the raise type [ValueError]. *)
Fixpoint post_loop (fuel : nat) (url : string) (headers : list (string * pyval))
    (text : string) (sleep_delay : Q) (attempts : Z) (response : option Response)
    : M (Z * option Response) :=
  if attempts >? 0 then
    match fuel with
    | O => out_of_fuel
    | S fuel' =>
        exec time_sleep sleep_delay in
        let* r :=
          try_except (requests_post (request_of url headers text))
            (fun _ => true)
            (fun exc =>
               log_exc "Unexpected exception on HTTP POST. Are you offline?"
                 (Some exc) true ValueError) in
        if status_code r =? 200 then ret (attempts, Some r)
        else post_loop fuel' url headers text sleep_delay (attempts - 1) (Some r)
    end
  else ret (attempts, response).

(** The helper, statement by statement.  [response] is read after the test
    on [attempts]; past that test it is always bound (lemma
    [post_loop_Ok_inv]), and the model looks it up once.  [len] of the
    output path counts its characters, [numpy.fromstring] reads the bytes of
    its encoding; the two divisions are binary64 divisions. *)
Definition _synthesize_single_python_helper (text voice_code : string)
    (output_file_path : option string) (return_audio_data : bool)
    (text_file : option string) : M synthesis :=
  let voice_id := ELEVEN_LABS_VOICE_ID rconf in
  let headers := request_headers in
  let url := request_url voice_id in
  let sleep_delay := TTS_API_SLEEP rconf in
  let attempts := TTS_API_RETRY_ATTEMPTS rconf in
  let* '(attempts, response) :=
    post_loop (Z.to_nat attempts) url headers text sleep_delay attempts None in
  exec (if attempts <=? 0
        then log_exc "All API requests returned status code != 200" None true ValueError
        else ret tt) in
  let* response :=
    match response with
    | Some r => ret r
    | None => raise (UnboundLocalError "response")
    end in
  exec match output_file_path with
       | None => ret tt
       | Some path =>
           wave_write path
             {| Wave.nchannels := 1; Wave.sampwidth := 2; Wave.framerate := SAMPLE_RATE |}
             (content response)
       end in
  let* '(output_handler, output_file_path_2) := tmp_file ".wav" in
  let* '(input_handler, input_file_path) := tmp_file ".wav" in
  exec write_file input_file_path (content response) in
  let arguements :=
    ["ffmpeg"; "-i"; input_file_path; "-c:a"; "pcm_s16le";
     "-ar"; str_of_Z SAMPLE_RATE; output_file_path_2] in
  exec try_except (exec subprocess_run arguements in ret tt)
         is_OSError (fun exc => ret tt) in
  let audio_sample_rate := SAMPLE_RATE in
  let number_of_frames :=
    Float.div (Float.of_Z (Z.of_nat (py_len output_file_path_2))) (Float.of_Z 2) in
  let audio_length :=
    TimeValue (Float.div number_of_frames (Float.of_Z audio_sample_rate)) in
  let audio_format := "pcm16" in
  let* items := numpy_fromstring_int16 output_file_path_2 in
  let audio_samples := normalize items in
  ret (true, (audio_length, audio_sample_rate, audio_format, audio_samples)).

End Helper.

(** ** Shapes of traces and states used in the statements *)

(** [n] attempts of the loop, each a sleep followed by the POST. *)
Fixpoint attempts_trace (n : nat) (seconds : Q) (r : request) : list event :=
  match n with
  | O => []
  | S n' => Sleep seconds :: Post r :: attempts_trace n' seconds r
  end.

(** The state after [n] further attempts: nothing but the trace and the
    POST counter has moved. *)
Definition after_attempts (w : world) (n : nat) (seconds : Q) (r : request) : world :=
  {| files := files w;
     trace := trace w ++ attempts_trace n seconds r;
     posts := n + posts w;
     tmps := tmps w |}.

(** The POST events of a trace, in order. *)
Definition posted (tr : list event) : list request :=
  omap (fun ev => match ev with Post r => Some r | _ => None end) tr.

(** The same environment with another child-process oracle. *)
Definition with_child (e : env)
    (c : list string -> gmap string (list byte) -> proc_outcome) : env :=
  {| provider := provider e; tmp_stem := tmp_stem e; child := c |}.

(** ** The language table

    The first seventeen keys are attributes of [aeneas.language.Language],
    which is not part of this file: they are taken as given.  The other keys
    are the literals of the class body. *)
Module Language.

Record t : Type := {
  CYM : string; DAN : string; DEU : string; ENG : string; FRA : string;
  ISL : string; ITA : string; JPN : string; NLD : string; NOR : string;
  POL : string; POR : string; RON : string; RUS : string; SPA : string;
  SWE : string; TUR : string
}.

End Language.

Definition ENG_AUS : string := "eng-AUS".
Definition ENG_GBR : string := "eng-GBR".
Definition ENG_IND : string := "eng-IND".
Definition ENG_USA : string := "eng-USA".
Definition ENG_WLS : string := "eng-WLS".
Definition FRA_CAN : string := "fra-CAN".
Definition FRA_FRA : string := "fra-FRA".
Definition POR_BRA : string := "por-BRA".
Definition POR_PRT : string := "por-PRT".
Definition SPA_ESP : string := "spa-ESP".
Definition SPA_USA : string := "spa-USA".

(** A dict display [{k1: v1, k2: v2, ...}]: the entries are stored from left
    to right, a later entry replacing an earlier one with an equal key. *)
Definition dict_display (entries : list (string * string)) : gmap string string :=
  list_to_map (reverse entries).

Section Table.

Variable L : Language.t.

Definition LANGUAGE_TO_VOICE_CODE_entries : list (string * string) :=
  [ (Language.CYM L, "Gwyneth");
    (Language.DAN L, "Naja");
    (Language.DEU L, "Marlene");
    (Language.ENG L, "Joanna");
    (Language.FRA L, "Celine");
    (Language.ISL L, "Dora");
    (Language.ITA L, "Carla");
    (Language.JPN L, "Mizuki");
    (Language.NLD L, "Lotte");
    (Language.NOR L, "Liv");
    (Language.POL L, "Maja");
    (Language.POR L, "Ines");
    (Language.RON L, "Carmen");
    (Language.RUS L, "Tatyana");
    (Language.SPA L, "Conchita");
    (Language.SWE L, "Astrid");
    (Language.TUR L, "Filiz");
    (ENG_AUS, "Nicole");
    (ENG_GBR, "Emma");
    (ENG_IND, "Raveena");
    (ENG_USA, "Joanna");
    (ENG_WLS, "Geraint");
    (FRA_FRA, "Celine");
    (FRA_CAN, "Chantal");
    (POR_BRA, "Vitoria");
    (POR_PRT, "Ines");
    (SPA_ESP, "Conchita");
    (SPA_USA, "Penelope") ].

Definition LANGUAGE_TO_VOICE_CODE : gmap string string :=
  dict_display LANGUAGE_TO_VOICE_CODE_entries.

(** The locale codes the table supports: its keys. *)
Definition supported_codes : list string := LANGUAGE_TO_VOICE_CODE_entries.*1.

End Table.

Definition DEFAULT_LANGUAGE : string := ENG_USA.

(** ** What the specification describes, for comparison with the code *)

Module Spec.

(** Reading the WAVE framing of a canonical file: the fields of the
    44-byte header, then the frames. *)
Definition u16_at (bs : list byte) (i : nat) : Z :=
  Bytes.to_Z (nth i bs x00) + 256 * Bytes.to_Z (nth (S i) bs x00).

Definition u32_at (bs : list byte) (i : nat) : Z :=
  u16_at bs i + 65536 * u16_at bs (i + 2).

Definition sample_rate (wav : list byte) : Z := u32_at wav 24.

Definition block_align (wav : list byte) : Z := u16_at wav 32.

Definition frames (wav : list byte) : list byte :=
  take (Z.to_nat (u32_at wav 40)) (drop 44 wav).

Definition frame_count (wav : list byte) : Z :=
  Z.of_nat (length (frames wav)) / block_align wav.

(** duration = frameCount / sampleRate. *)
Definition duration (wav : list byte) : Q :=
  (inject_Z (frame_count wav) / inject_Z (sample_rate wav))%Q.

(** The signed 16-bit samples of the frames, each divided by 32768. *)
Definition samples (wav : list byte) : option (list Q) :=
  normalize <$> int16_items (frames wav).

(** Voice resolution as described: the configured override when present,
    else the table entry of the locale code, else a configuration error
    ([None]). *)
Definition resolveVoice (table : gmap string string) (override : pyval)
    (code : string) : option string :=
  match override with
  | PyNone => table !! code
  | v => Some (py_str v)
  end.

End Spec.

(** ** The steps after the loop, as functions of the state they start in *)

(** The WAVE parameters the helper sets on the file it saves. *)
Definition saved_params : Wave.params :=
  {| Wave.nchannels := 1; Wave.sampwidth := 2; Wave.framerate := SAMPLE_RATE |}.

(** The argument list of the child process. *)
Definition ffmpeg_argv (input_file_path output_file_path_2 : string) : list string :=
  ["ffmpeg"; "-i"; input_file_path; "-c:a"; "pcm_s16le";
   "-ar"; str_of_Z SAMPLE_RATE; output_file_path_2].

(** The paths of the two temporary files of a call that starts them in a
    state with [n] temporary files made so far: the output file first. *)
Definition output_tmp (e : env) (n : nat) : string := (tmp_stem e n ++ ".wav")%string.
Definition input_tmp (e : env) (n : nat) : string := (tmp_stem e (S n) ++ ".wav")%string.

(** The files after the save to [output_file_path], if one is given. *)
Definition files_saved (output_file_path : option string) (r : Response)
    (fs : gmap string (list byte)) : gmap string (list byte) :=
  match output_file_path with
  | None => fs
  | Some path => <[path := Wave.file_bytes saved_params (content r)]> fs
  end.

(** The files after the two temporary files are made and the response is
    written to the input one. *)
Definition files_staged (e : env) (n : nat) (r : Response)
    (fs : gmap string (list byte)) : gmap string (list byte) :=
  <[input_tmp e n := content r]> (<[input_tmp e n := []]> (<[output_tmp e n := []]> fs)).

(** The files after the child process, whatever its end. *)
Definition files_transcoded (e : env) (argv : list string)
    (fs : gmap string (list byte)) : gmap string (list byte) :=
  match child e argv fs with
  | SpawnFails _ => fs
  | Exits _ fs' => fs'
  end.

(** The files a child process leaves behind: the ones it found, when it
    could not be started. *)
Definition files_left (o : proc_outcome) (fs : gmap string (list byte))
    : gmap string (list byte) :=
  match o with
  | SpawnFails _ => fs
  | Exits _ fs' => fs'
  end.

(** The last lines of the helper: the tuple built from the output path. *)
Definition outcome_of_path (output_file_path_2 : string) : outcome synthesis :=
  match int16_items (Bytes.of_string output_file_path_2) with
  | Some items =>
      Ok (true,
          (TimeValue
             (Float.div
                (Float.div (Float.of_Z (Z.of_nat (py_len output_file_path_2)))
                   (Float.of_Z 2))
                (Float.of_Z SAMPLE_RATE)),
           SAMPLE_RATE, "pcm16", normalize items))
  | None => Raise (ValueError "string size must be a multiple of element size")
  end.

(** The state a call that left the loop by [break] in state [w1], with
    response [r], ends in. *)
Definition final_world (e : env) (output_file_path : option string) (r : Response)
    (w1 : world) : world :=
  let argv := ffmpeg_argv (input_tmp e (tmps w1)) (output_tmp e (tmps w1)) in
  {| files := files_transcoded e argv
                (files_staged e (tmps w1) r (files_saved output_file_path r (files w1)));
     trace := trace w1 ++ [Popen argv];
     posts := posts w1;
     tmps := S (S (tmps w1)) |}.

(** ** Concrete configurations, providers and children for the examples *)

Module Demo.

(** The ISO 639-3 codes upstream [aeneas.language.Language] carries. *)
Definition iso : Language.t :=
  {| Language.CYM := "cym"; Language.DAN := "dan"; Language.DEU := "deu";
     Language.ENG := "eng"; Language.FRA := "fra"; Language.ISL := "isl";
     Language.ITA := "ita"; Language.JPN := "jpn"; Language.NLD := "nld";
     Language.NOR := "nor"; Language.POL := "pol"; Language.POR := "por";
     Language.RON := "ron"; Language.RUS := "rus"; Language.SPA := "spa";
     Language.SWE := "swe"; Language.TUR := "tur" |}.

Definition rconf (voice_id : pyval) (attempts : Z) : RuntimeConfiguration :=
  {| ELEVEN_LABS_VOICE_ID := voice_id;
     ELEVEN_LABS_API_KEY := PyStr "secret";
     ELEVEN_LABS_STABILITY := PyStr "0.5";
     ELEVEN_LABS_SIMILARITY_BOOST := PyStr "0.75";
     TTS_API_SLEEP := 1;
     TTS_API_RETRY_ATTEMPTS := attempts |}.

(** The request such a configuration posts for the text ["hello"]. *)
Definition hello (voice : string) : request :=
  {| req_url := "https://api.elevenlabs.io/v1/text-to-speech/" ++ voice;
     req_headers := [("xi-api-key", PyStr "secret");
                     ("Accept", PyStr "audio/x-wav;codec=pcm;bit=16;rate=16000")];
     req_json := {| text := "hello";
                    settings := {| stability := "0.5"; similarity_boost := "0.75" |} |} |}.

Definition busy : Response := {| status_code := 429; content := [] |}.

(** A 200 answer whose body is not yet in the canonical format. *)
Definition served : Response :=
  {| status_code := 200; content := [x01; x02; x03; x04; x05; x06] |}.

(** A provider that answers 429 to its first [n] calls and 200 after. *)
Definition provider_after (n : nat) : nat -> request -> post_outcome :=
  fun i _ => if (i <? n)%nat then PostReturns busy else PostReturns served.

(** Temporary names as [mkstemp] makes them below [/tmp/] (twenty
    characters with the suffix), and below the temporary directory of a
    Windows user (forty-seven characters with the suffix). *)
Definition stems_tmp : nat -> string :=
  fun n => if (n =? 0)%nat then "/tmp/tmpq7x2k9ab" else "/tmp/tmpw4m8z1cd".

Definition stems_windows : nat -> string :=
  fun n => if (n =? 0)%nat then "C:\Users\bob\AppData\Local\Temp\tmpq7x2k9ab"
           else "C:\Users\bob\AppData\Local\Temp\tmpw4m8z1cd".

(** The same directory for a user whose name has an accented letter:
    forty-seven characters with the suffix, forty-eight bytes. *)
Definition stems_accent : nat -> string :=
  fun n => if (n =? 0)%nat then "C:\Users\bób\AppData\Local\Temp\tmpq7x2k9ab"
           else "C:\Users\bób\AppData\Local\Temp\tmpw4m8z1cd".

(** The canonical WAVE file of two frames a transcoder could produce. *)
Definition transcoded : list byte :=
  Wave.file_bytes saved_params [x10; x00; x20; x00].

(** A child that writes that file at the path of its last argument. *)
Definition ffmpeg_works : list string -> gmap string (list byte) -> proc_outcome :=
  fun argv fs => Exits 0 (<[List.last argv "" := transcoded]> fs).

(** The program is not installed. *)
Definition ffmpeg_missing : list string -> gmap string (list byte) -> proc_outcome :=
  fun _ _ => SpawnFails "No such file or directory: 'ffmpeg'".

(** The program exits with status 1 and writes nothing. *)
Definition ffmpeg_fails : list string -> gmap string (list byte) -> proc_outcome :=
  fun _ fs => Exits 1 fs.

(** The program exits with status 0 and writes nothing. *)
Definition ffmpeg_idle : list string -> gmap string (list byte) -> proc_outcome :=
  fun _ fs => Exits 0 fs.

(** The program exits with status 1 and leaves no output file. *)
Definition ffmpeg_no_output : list string -> gmap string (list byte) -> proc_outcome :=
  fun argv fs => Exits 1 (delete (List.last argv "") fs).

(** A provider that answers 429 to every call. *)
Definition provider_busy : nat -> request -> post_outcome :=
  fun _ _ => PostReturns busy.

Definition environment (failures : nat) (stems : nat -> string)
    (c : list string -> gmap string (list byte) -> proc_outcome) : env :=
  {| provider := provider_after failures; tmp_stem := stems; child := c |}.

(** A call for the text ["hello"] and the voice code ["eng-USA"]. *)
Definition call (rc : RuntimeConfiguration) (out : option string) (e : env)
    : outcome synthesis * world :=
  _synthesize_single_python_helper rc "hello" "eng-USA" out true None e (initial ∅).

End Demo.

(** ** The second function of the class: [trim_last_frame]

    File-system calls it makes and the helper does not. *)

(** [with tempfile.NamedTemporaryFile(delete=False, suffix=...) as f:]
    [f.write(data)], then [f.name]: a new file with a name of its own ending
    in the suffix, left on disk with the data. *)
Definition NamedTemporaryFile (suffix : string) (data : list byte) : M string :=
  fun e w =>
    let path := (tmp_stem e (tmps w) ++ suffix)%string in
    (Ok path,
     {| files := <[path := data]> (files w); trace := trace w;
        posts := posts w; tmps := S (tmps w) |}).

(** [with open(path, 'rb') as f: f.read()]. *)
Definition read_file (path : string) : M (list byte) :=
  fun _ w =>
    match files w !! path with
    | Some data => (Ok data, w)
    | None => (Raise (OSError "No such file or directory"), w)
    end.

(** [os.remove(path)]. *)
Definition os_remove (path : string) : M unit :=
  fun e w =>
    match files w !! path with
    | Some _ => set_files (delete path (files w)) e w
    | None => (Raise (OSError "No such file or directory"), w)
    end.

(** [os.path.exists(path)]. *)
Definition os_path_exists (path : string) : M bool :=
  fun _ w => (Ok (bool_decide (is_Some (files w !! path))), w).

(** [s.replace(old, new)]: the occurrences of [old] are found from left to
    right without overlap and each is replaced.  [skip] counts the
    characters of an occurrence still to be passed over.  With an empty
    [old], [new] is put before every character and at the end. *)
Fixpoint replace_from (old new : string) (skip : nat) (s : string) : string :=
  match s with
  | EmptyString => EmptyString
  | String c s' =>
      match skip with
      | S k => replace_from old new k s'
      | O =>
          if String.prefix old s
          then (new ++ replace_from old new (String.length old - 1) s')%string
          else String c (replace_from old new 0 s')
      end
  end.

Fixpoint interleave (new s : string) : string :=
  match s with
  | EmptyString => new
  | String c s' => (new ++ String c (interleave new s'))%string
  end.

Definition py_replace (s old new : string) : string :=
  match old with
  | EmptyString => interleave new s
  | _ => replace_from old new 0 s
  end.

(** The argument list of the trimming child process. *)
Definition trim_argv (temp_audio_file_path output_audio_file_path : string)
    (number_of_frames : Z) : list string :=
  ["ffmpeg"; "-i"; temp_audio_file_path;
   "-af"; ("atrim=end_sample=" ++ str_of_Z (number_of_frames - 1))%string;
   output_audio_file_path].

(** [if os.path.exists(path): os.remove(path)]. *)
Definition remove_if_exists (path : string) : M unit :=
  let* there := os_path_exists path in
  if there then os_remove path else ret tt.

(** [trim_last_frame(content, number_of_frames)].  The [except Exception]
    clause takes every exception of the [try] block. *)
Definition trim_last_frame (content : list byte) (number_of_frames : Z)
    : M (option (list byte)) :=
  let* temp_audio_file_path := NamedTemporaryFile ".wav" content in
  let output_audio_file_path := py_replace temp_audio_file_path ".wav" "_trimmed.wav" in
  let arguments := trim_argv temp_audio_file_path output_audio_file_path number_of_frames in
  try_except
    (exec subprocess_run arguments in
     let* processed_audio_data := read_file output_audio_file_path in
     exec os_remove temp_audio_file_path in
     exec os_remove output_audio_file_path in
     ret (Some processed_audio_data))
    (fun _ => true)
    (fun e =>
       exec remove_if_exists temp_audio_file_path in
       exec remove_if_exists output_audio_file_path in
       ret None).

(** ** The table of human-readable names and its sorted listing *)

(** The order of [sorted] on texts: lexicographic, by character code. *)
Definition str_le (a b : string) : Prop := String.leb a b = true.

#[global] Instance str_le_dec : RelDecision str_le.
Proof. intros a b. unfold str_le. apply _. Defined.

(** [sorted(lines)]: the lines in ascending order.  The order is total and
    antisymmetric, so the ascending arrangement of given lines is unique and
    does not depend on the order they come in. *)
Definition py_sorted (lines : list string) : list string := merge_sort str_le lines.

(** [u"%s\t%s" % (k, v)]. *)
Definition code_tab_human (kv : string * string) : string :=
  (kv.1 ++ String "009"%char kv.2)%string.

Section HumanTable.

Variable L : Language.t.

Definition CODE_TO_HUMAN_entries : list (string * string) :=
  [ (Language.CYM L, "Welsh");
    (Language.DAN L, "Danish");
    (Language.DEU L, "German");
    (Language.ENG L, "English");
    (Language.FRA L, "French");
    (Language.ISL L, "Icelandic");
    (Language.ITA L, "Italian");
    (Language.JPN L, "Japanese");
    (Language.NLD L, "Dutch");
    (Language.NOR L, "Norwegian");
    (Language.POL L, "Polish");
    (Language.POR L, "Portuguese");
    (Language.RON L, "Romanian");
    (Language.RUS L, "Russian");
    (Language.SPA L, "Spanish");
    (Language.SWE L, "Swedish");
    (Language.TUR L, "Turkish");
    (ENG_AUS, "English (Australia)");
    (ENG_GBR, "English (GB)");
    (ENG_IND, "English (India)");
    (ENG_USA, "English (USA)");
    (ENG_WLS, "English (Wales)");
    (FRA_CAN, "French (Canada)");
    (FRA_FRA, "French (France)");
    (POR_BRA, "Portuguese (Brazil)");
    (POR_PRT, "Portuguese (Portugal)");
    (SPA_ESP, "Spanish (Spain)");
    (SPA_USA, "Spanish (USA)") ].

Definition CODE_TO_HUMAN : gmap string string :=
  dict_display CODE_TO_HUMAN_entries.

(** [sorted([u"%s\t%s" % (k, v) for k, v in CODE_TO_HUMAN.items()])]. *)
Definition CODE_TO_HUMAN_LIST : list string :=
  py_sorted (code_tab_human <$> map_to_list CODE_TO_HUMAN).

End HumanTable.

(** * Properties *)

(** ** Sanity checks of the library models *)

Example str_of_Z_16000 : str_of_Z 16000 = "16000".
Proof. reflexivity. Qed.

Example accept_header rc :
  request_headers rc =
  [("xi-api-key", ELEVEN_LABS_API_KEY rc);
   ("Accept", PyStr "audio/x-wav;codec=pcm;bit=16;rate=16000")].
Proof. reflexivity. Qed.

Lemma wave_header_length p n : length (Wave.header p n) = 44%nat.
Proof. reflexivity. Qed.

Example int16_of_examples :
  Bytes.int16_of x00 x80 = -32768 /\ Bytes.int16_of xff x7f = 32767
  /\ Bytes.int16_of xff xff = -1 /\ Bytes.int16_of x10 x00 = 16.
Proof. repeat split. Qed.

(** The reader of the specification reads back what the writer model
    wrote. *)
Example wave_read_back :
  Spec.frames Demo.transcoded = [x10; x00; x20; x00]
  /\ Spec.sample_rate Demo.transcoded = 16000
  /\ Spec.block_align Demo.transcoded = 2.
Proof. repeat split. Qed.

(** ** The monad *)

Lemma bind_Ok {A B} (m : M A) (k : A -> M B) e w b w' :
  bind m k e w = (Ok b, w') ->
  exists a w1, m e w = (Ok a, w1) /\ k a e w1 = (Ok b, w').
Proof.
  unfold bind. destruct (m e w) as [[a| x |] w1]; intros H; try discriminate.
  exists a, w1. split; [reflexivity | exact H].
Qed.

Lemma bind_run {A B} (m : M A) (k : A -> M B) e w a w1 :
  m e w = (Ok a, w1) -> bind m k e w = k a e w1.
Proof. unfold bind. intros ->. reflexivity. Qed.

Lemma bind_raise {A B} (m : M A) (k : A -> M B) e w x w1 :
  m e w = (Raise x, w1) -> bind m k e w = (Raise x, w1).
Proof. unfold bind. intros ->. reflexivity. Qed.

Lemma after_attempts_0 w d r : after_attempts w 0 d r = w.
Proof.
  destruct w. unfold after_attempts. simpl. rewrite app_nil_r. reflexivity.
Qed.

Lemma after_attempts_S w n d r :
  after_attempts (after_attempts w 1 d r) n d r = after_attempts w (S n) d r.
Proof.
  unfold after_attempts. simpl. rewrite <- app_assoc. simpl.
  f_equal. lia.
Qed.

Lemma attempts_trace_add a b d r :
  attempts_trace (a + b) d r = attempts_trace a d r ++ attempts_trace b d r.
Proof. induction a as [|a IH]; simpl; [reflexivity | rewrite IH; reflexivity]. Qed.

Lemma after_attempts_add w a b d r :
  after_attempts (after_attempts w a d r) b d r = after_attempts w (a + b) d r.
Proof.
  unfold after_attempts. simpl. rewrite attempts_trace_add, <- app_assoc.
  f_equal. lia.
Qed.

Lemma posted_attempts_trace n d r : posted (attempts_trace n d r) = replicate n r.
Proof. induction n as [|n IH]; simpl; [reflexivity | f_equal; exact IH]. Qed.

(** ** The retry loop *)

Section Loop.

Variable rconf : RuntimeConfiguration.
Variable e : env.
Variables (url : string) (headers : list (string * pyval)) (text : string).
Variable d : Q.
Hypothesis d_nonneg : Qle_bool 0 d = true.

Let req : request := request_of rconf url headers text.

(** One pass that gets a status other than 200. *)
Lemma post_loop_retry fuel attempts resp w r :
  0 < attempts ->
  provider e (posts w) req = PostReturns r ->
  status_code r <> 200 ->
  post_loop rconf (S fuel) url headers text d attempts resp e w =
  post_loop rconf fuel url headers text d (attempts - 1) (Some r) e
    (after_attempts w 1 d req).
Proof.
  intros Hpos Hp Hs. simpl.
  destruct (attempts >? 0) eqn:Hgt; [|lia].
  unfold bind at 1. unfold time_sleep. rewrite d_nonneg. unfold emit.
  unfold bind at 1. unfold try_except, requests_post. simpl.
  fold req. rewrite Hp.
  destruct (status_code r =? 200) eqn:H200; [lia|].
  unfold after_attempts. simpl. rewrite <- app_assoc. reflexivity.
Qed.

(** One pass that gets status 200: the loop is left with [attempts]
    unchanged. *)
Lemma post_loop_break fuel attempts resp w r :
  0 < attempts ->
  provider e (posts w) req = PostReturns r ->
  status_code r = 200 ->
  post_loop rconf (S fuel) url headers text d attempts resp e w =
  (Ok (attempts, Some r), after_attempts w 1 d req).
Proof.
  intros Hpos Hp Hs. simpl.
  destruct (attempts >? 0) eqn:Hgt; [|lia].
  unfold bind at 1. unfold time_sleep. rewrite d_nonneg. unfold emit.
  unfold bind at 1. unfold try_except, requests_post. simpl.
  fold req. rewrite Hp.
  destruct (status_code r =? 200) eqn:H200; [|lia].
  unfold after_attempts, ret. simpl. rewrite <- app_assoc. reflexivity.
Qed.

(** [k] passes in a row that get a status other than 200. *)
Lemma post_loop_retries k : forall fuel attempts resp w,
  Z.of_nat k <= attempts ->
  (forall i, (i < k)%nat ->
     exists r, provider e (i + posts w) req = PostReturns r /\ status_code r <> 200) ->
  exists resp',
    post_loop rconf (k + fuel) url headers text d attempts resp e w =
    post_loop rconf fuel url headers text d (attempts - Z.of_nat k) resp' e
      (after_attempts w k d req).
Proof.
  induction k as [|k IH]; intros fuel attempts resp w Hle Hall.
  - exists resp. rewrite after_attempts_0. simpl. f_equal. lia.
  - destruct (Hall 0%nat) as [r [Hp Hs]]; [lia|]. simpl in Hp.
    destruct (IH fuel (attempts - 1) (Some r) (after_attempts w 1 d req)) as [resp' Hk].
    + lia.
    + intros i Hi. destruct (Hall (S i)) as [r' [Hp' Hs']]; [lia|].
      exists r'. split; [|exact Hs'].
      simpl. rewrite <- Hp'. f_equal. lia.
    + exists resp'. change (S k + fuel)%nat with (S (k + fuel)).
      rewrite (post_loop_retry _ _ _ _ r) by (try lia; assumption).
      rewrite Hk. rewrite after_attempts_S. f_equal. lia.
Qed.

End Loop.

(** ** The helper after the loop *)

Section Tail.

Variable rconf : RuntimeConfiguration.
Variable e : env.

(** The whole of the helper once the loop has been left by [break]. *)
Lemma helper_after_break text voice_code out rad tf w a r w1 :
  post_loop rconf (Z.to_nat (TTS_API_RETRY_ATTEMPTS rconf))
    (request_url (ELEVEN_LABS_VOICE_ID rconf)) (request_headers rconf) text
    (TTS_API_SLEEP rconf) (TTS_API_RETRY_ATTEMPTS rconf) None e w
  = (Ok (a, Some r), w1) ->
  0 < a ->
  let argv := ffmpeg_argv (input_tmp e (tmps w1)) (output_tmp e (tmps w1)) in
  _synthesize_single_python_helper rconf text voice_code out rad tf e w =
  (outcome_of_path (output_tmp e (tmps w1)),
   {| files := files_transcoded e argv
                 (files_staged e (tmps w1) r (files_saved out r (files w1)));
      trace := trace w1 ++ [Popen argv];
      posts := posts w1;
      tmps := S (S (tmps w1)) |}).
Proof.
  intros Hloop Ha argv.
  unfold _synthesize_single_python_helper.
  rewrite (bind_run _ _ _ _ _ _ Hloop).
  destruct (a <=? 0) eqn:Hle; [lia|].
  unfold bind at 1. unfold ret at 1.
  unfold bind at 1. unfold ret at 1.
  unfold bind at 1.
  assert (Hsave :
    (match out with
     | Some path => wave_write path
         {| Wave.nchannels := 1; Wave.sampwidth := 2; Wave.framerate := SAMPLE_RATE |}
         (content r)
     | None => ret tt
     end) e w1
    = (Ok tt, {| files := files_saved out r (files w1); trace := trace w1;
                 posts := posts w1; tmps := tmps w1 |})).
  { destruct out as [path|]; simpl.
    - reflexivity.
    - destruct w1; reflexivity. }
  rewrite Hsave. clear Hsave.
  unfold bind at 1. unfold tmp_file at 1. cbn [tmps files trace posts].
  unfold bind at 1. unfold tmp_file at 1. cbn [tmps files trace posts].
  unfold bind at 1. unfold write_file at 1. unfold bind at 1.
  unfold get_files at 1, set_files at 1. cbn [tmps files trace posts].
  fold (output_tmp e (tmps w1)). fold (input_tmp e (tmps w1)).
  fold (ffmpeg_argv (input_tmp e (tmps w1)) (output_tmp e (tmps w1))). fold argv.
  fold (files_staged e (tmps w1) r (files_saved out r (files w1))).
  set (fs2 := files_staged e (tmps w1) r (files_saved out r (files w1))).
  unfold bind at 1. unfold try_except, subprocess_run, bind, emit, get_files, set_files.
  cbn [tmps files trace posts fst snd].
  unfold files_transcoded.
  destruct (child e argv fs2) as [msg | rc fs'].
  - cbn [is_OSError]. unfold ret at 1. unfold numpy_fromstring_int16, outcome_of_path.
    destruct (int16_items _); reflexivity.
  - unfold ret at 1. cbn [snd tmps files trace posts].
    unfold numpy_fromstring_int16, outcome_of_path.
    destruct (int16_items _); reflexivity.
Qed.

End Tail.

(** ** Invariants of the loop *)

Section LoopInvariants.

Variable rconf : RuntimeConfiguration.
Variables (url : string) (headers : list (string * pyval)) (text : string).
Variable d : Q.

Let req : request := request_of rconf url headers text.

(** One pass of the loop, by cases. *)
Lemma post_loop_unfold e fuel attempts resp w :
  post_loop rconf (S fuel) url headers text d attempts resp e w =
  if attempts >? 0 then
    if Qle_bool 0 d then
      match provider e (posts w) req with
      | PostReturns r =>
          if status_code r =? 200
          then (Ok (attempts, Some r), after_attempts w 1 d req)
          else post_loop rconf fuel url headers text d (attempts - 1) (Some r) e
                 (after_attempts w 1 d req)
      | PostRaises x =>
          (Raise (ValueError
                    ("Unexpected exception on HTTP POST. Are you offline?"
                     ++ " : " ++ exn_str x)%string),
           after_attempts w 1 d req)
      end
    else (Raise (ValueError "sleep length must be non-negative"), w)
  else (Ok (attempts, resp), w).
Proof.
  simpl. destruct (attempts >? 0); [|reflexivity].
  unfold bind at 1. unfold time_sleep.
  destruct (Qle_bool 0 d); [|reflexivity].
  unfold emit. unfold bind at 1. unfold try_except, requests_post. simpl.
  fold req. unfold after_attempts. simpl. rewrite <- app_assoc. simpl.
  destruct (provider e (posts w) req) as [x | r]; [reflexivity|].
  destruct (status_code r =? 200); reflexivity.
Qed.

Lemma post_loop_0 e attempts resp w :
  post_loop rconf 0 url headers text d attempts resp e w =
  if attempts >? 0 then (OutOfFuel, w) else (Ok (attempts, resp), w).
Proof. simpl. destruct (attempts >? 0); reflexivity. Qed.

(** The fuel [Z.to_nat attempts] is never used up. *)
Lemma post_loop_fuel e fuel : forall attempts resp w,
  (Z.to_nat attempts <= fuel)%nat ->
  fst (post_loop rconf fuel url headers text d attempts resp e w) <> OutOfFuel.
Proof.
  induction fuel as [|fuel IH]; intros attempts resp w Hf.
  - rewrite post_loop_0. destruct (attempts >? 0) eqn:Hgt; [lia | discriminate].
  - rewrite post_loop_unfold.
    destruct (attempts >? 0) eqn:Hgt; [|discriminate].
    destruct (Qle_bool 0 d); [|discriminate].
    destruct (provider e (posts w) req) as [x | r]; [discriminate|].
    destruct (status_code r =? 200); [discriminate|].
    apply IH. lia.
Qed.

(** The loop touches neither the files nor the temporary-file counter,
    and everything it posts is the one request. *)
Lemma post_loop_frame e fuel : forall attempts resp w o w',
  post_loop rconf fuel url headers text d attempts resp e w = (o, w') ->
  files w' = files w /\ tmps w' = tmps w /\
  exists k (tr : list event), trace w' = (trace w ++ tr)%list /\ posted tr = replicate k req /\
               posts w' = (k + posts w)%nat.
Proof.
  induction fuel as [|fuel IH]; intros attempts resp w o w' H.
  - rewrite post_loop_0 in H.
    assert (w' = w) as -> by (destruct (attempts >? 0); congruence).
    repeat split. exists 0%nat, []. rewrite app_nil_r. auto.
  - rewrite post_loop_unfold in H.
    assert (Hone : posted (attempts_trace 1 d req) = replicate 1 req)
      by apply posted_attempts_trace.
    assert (Hstop : forall o0, (o0, after_attempts w 1 d req) = (o, w') ->
      files w' = files w /\ tmps w' = tmps w /\
      exists k (tr : list event), trace w' = (trace w ++ tr)%list /\ posted tr = replicate k req /\
                   posts w' = (k + posts w)%nat).
    { intros o0 [= _ <-]. repeat split.
      exists 1%nat, (attempts_trace 1 d req). auto. }
    assert (Hstay : forall o0, (o0, w) = (o, w') ->
      files w' = files w /\ tmps w' = tmps w /\
      exists k (tr : list event), trace w' = (trace w ++ tr)%list /\ posted tr = replicate k req /\
                   posts w' = (k + posts w)%nat).
    { intros o0 [= _ <-]. repeat split.
      exists 0%nat, []. rewrite app_nil_r. auto. }
    destruct (attempts >? 0); [|eauto].
    destruct (Qle_bool 0 d); [|eauto].
    destruct (provider e (posts w) req) as [x | r]; [eauto|].
    destruct (status_code r =? 200); [eauto|].
    apply IH in H. destruct H as (Hf & Ht & k & tr & Htr & Hp & Hn).
    split; [exact Hf|]. split; [exact Ht|].
    exists (S k), (attempts_trace 1 d req ++ tr)%list. repeat split.
    + rewrite Htr. simpl. rewrite <- app_assoc. reflexivity.
    + unfold posted in *. simpl. f_equal. exact Hp.
    + rewrite Hn. simpl. lia.
Qed.

(** When the loop ends with [attempts] still positive it was left by
    [break]: [response] is the 200 answer to the last POST. *)
Lemma post_loop_Ok_inv e fuel : forall attempts resp w a resp' w',
  post_loop rconf fuel url headers text d attempts resp e w = (Ok (a, resp'), w') ->
  0 < a ->
  exists r n, resp' = Some r /\ status_code r = 200 /\
              posts w' = S n /\ provider e n req = PostReturns r.
Proof.
  induction fuel as [|fuel IH]; intros attempts resp w a resp' w' H Ha.
  - rewrite post_loop_0 in H.
    destruct (attempts >? 0) eqn:Hgt; [discriminate|].
    injection H as <- _ _. lia.
  - rewrite post_loop_unfold in H.
    destruct (attempts >? 0) eqn:Hgt; [|injection H as <- _ _; lia].
    destruct (Qle_bool 0 d); [|discriminate].
    destruct (provider e (posts w) req) as [x | r] eqn:Hp; [discriminate|].
    destruct (status_code r =? 200) eqn:H200.
    + injection H as <- <- <-. exists r, (posts w). repeat split; [lia | exact Hp].
    + eapply IH; eauto.
Qed.

(** The loop does not consult the child-process oracle. *)
Lemma post_loop_with_child e c fuel : forall attempts resp w,
  post_loop rconf fuel url headers text d attempts resp (with_child e c) w =
  post_loop rconf fuel url headers text d attempts resp e w.
Proof.
  induction fuel as [|fuel IH]; intros attempts resp w.
  - rewrite !post_loop_0. reflexivity.
  - rewrite !post_loop_unfold. simpl provider.
    destruct (attempts >? 0); [|reflexivity].
    destruct (Qle_bool 0 d); [|reflexivity].
    destruct (provider e (posts w) req); [reflexivity|].
    destruct (status_code r =? 200); [reflexivity|]. apply IH.
Qed.

End LoopInvariants.

(** ** The three ways a call can go *)

Section Cases.

Variable rconf : RuntimeConfiguration.
Variable e : env.
Variables (text voice_code : string) (out : option string).
Variables (rad : bool) (tf : option string).

Let url : string := request_url (ELEVEN_LABS_VOICE_ID rconf).
Let req : request := request_of rconf url (request_headers rconf) text.
Let d : Q := TTS_API_SLEEP rconf.
Let loop (w : world) : outcome (Z * option Response) * world :=
  post_loop rconf (Z.to_nat (TTS_API_RETRY_ATTEMPTS rconf)) url (request_headers rconf)
    text d (TTS_API_RETRY_ATTEMPTS rconf) None e w.
Let helper : M synthesis :=
  _synthesize_single_python_helper rconf text voice_code out rad tf.

Lemma helper_loop_raises w x w1 :
  loop w = (Raise x, w1) -> helper e w = (Raise x, w1).
Proof.
  intros H. unfold helper, _synthesize_single_python_helper.
  apply bind_raise. exact H.
Qed.

Lemma helper_exhausted w a resp w1 :
  loop w = (Ok (a, resp), w1) -> a <= 0 ->
  helper e w = (Raise (ValueError "All API requests returned status code != 200"), w1).
Proof.
  intros H Ha. unfold helper, _synthesize_single_python_helper.
  rewrite (bind_run _ _ _ _ _ _ H).
  destruct (a <=? 0) eqn:Hle; [|lia]. reflexivity.
Qed.

Lemma helper_cases w :
  (exists x w1, loop w = (Raise x, w1) /\ helper e w = (Raise x, w1))
  \/ (exists a resp w1, loop w = (Ok (a, resp), w1) /\ a <= 0 /\
        helper e w =
        (Raise (ValueError "All API requests returned status code != 200"), w1))
  \/ (exists a r w1 n, loop w = (Ok (a, Some r), w1) /\ 0 < a /\
        status_code r = 200 /\ posts w1 = S n /\ provider e n req = PostReturns r /\
        helper e w = (outcome_of_path (output_tmp e (tmps w1)), final_world e out r w1)).
Proof.
  pose proof (post_loop_fuel rconf url (request_headers rconf) text d e
                (Z.to_nat (TTS_API_RETRY_ATTEMPTS rconf))
                (TTS_API_RETRY_ATTEMPTS rconf) None w (Nat.le_refl _)) as Hfuel.
  fold (loop w) in Hfuel.
  destruct (loop w) as [[[a resp] | x |] w1] eqn:Hloop.
  - destruct (Z_le_gt_dec a 0) as [Ha | Ha].
    + right. left. exists a, resp, w1. split; [reflexivity|]. split; [exact Ha|].
      eapply helper_exhausted; eauto.
    + right. right.
      destruct (post_loop_Ok_inv rconf url (request_headers rconf) text d e _ _ _ _ _ _ _
                  Hloop ltac:(lia)) as (r & n & -> & H200 & Hn & Hp).
      exists a, r, w1, n. repeat split; try assumption; try lia.
      apply (helper_after_break rconf e text voice_code out rad tf w a r w1 Hloop).
      lia.
  - left. exists x, w1. split; [reflexivity|]. apply helper_loop_raises. exact Hloop.
  - simpl in Hfuel. congruence.
Qed.

(** The helper is total: it returns or raises. *)
Lemma helper_total w : fst (helper e w) <> OutOfFuel.
Proof.
  destruct (helper_cases w) as [(x & w1 & _ & ->) | [(a & resp & w1 & _ & _ & ->) |
    (a & r & w1 & n & _ & _ & _ & _ & _ & ->)]]; simpl; try discriminate.
  unfold outcome_of_path. destruct (int16_items _); discriminate.
Qed.

(** A returned tuple is the one built from the output path. *)
Lemma helper_Ok_inv w res :
  fst (helper e w) = Ok res ->
  exists a r w1 n, loop w = (Ok (a, Some r), w1) /\ 0 < a /\
    status_code r = 200 /\ posts w1 = S n /\ provider e n req = PostReturns r /\
    outcome_of_path (output_tmp e (tmps w1)) = Ok res /\
    snd (helper e w) = final_world e out r w1.
Proof.
  intros H.
  destruct (helper_cases w) as [(x & w1 & _ & Hh) | [(a & resp & w1 & _ & _ & Hh) |
    (a & r & w1 & n & Hl & Ha & H200 & Hn & Hp & Hh)]];
    rewrite Hh in H; simpl in H; try discriminate.
  exists a, r, w1, n. rewrite Hh. repeat split; assumption.
Qed.

(** Every POST of a call carries the one request. *)
Lemma helper_posted w :
  exists k, posted (trace (snd (helper e w))) = posted (trace w) ++ replicate k req.
Proof.
  assert (Hloop : forall o w1, loop w = (o, w1) ->
            exists k, posted (trace w1) = posted (trace w) ++ replicate k req).
  { intros o w1 H.
    apply post_loop_frame in H. destruct H as (_ & _ & k & tr & Htr & Hp & _).
    exists k. rewrite Htr. unfold posted in *. rewrite omap_app. rewrite Hp. reflexivity. }
  destruct (helper_cases w) as [(x & w1 & Hl & ->) | [(a & resp & w1 & Hl & _ & ->) |
    (a & r & w1 & n & Hl & _ & _ & _ & _ & ->)]]; simpl; eauto.
  destruct (Hloop _ _ Hl) as [k Hk]. exists k.
  unfold posted in *. rewrite omap_app. simpl. rewrite app_nil_r. exact Hk.
Qed.

End Cases.

(** ** Sixteen-bit items *)

Lemma to_Z_range (b : byte) : 0 <= Bytes.to_Z b < 256.
Proof. destruct b; unfold Bytes.to_Z; simpl; lia. Qed.

Lemma high_bits_clear (n k : Z) :
  0 <= k -> 0 <= n < 2 ^ k -> forall l, k <= l -> Z.testbit n l = false.
Proof.
  intros Hk [Hn Hlt]. apply (proj1 (Z.bounded_iff_bits_nonneg k n Hk Hn)). exact Hlt.
Qed.

Lemma int16_of_range (lo hi : byte) : -32768 <= Bytes.int16_of lo hi <= 32767.
Proof.
  pose proof (to_Z_range lo) as Hlo. pose proof (to_Z_range hi) as Hhi.
  unfold Bytes.int16_of.
  set (u := Z.lor (Bytes.to_Z lo) (Z.shiftl (Bytes.to_Z hi) 8)).
  assert (Hsh : 0 <= Z.shiftl (Bytes.to_Z hi) 8 < 2 ^ 16).
  { rewrite Z.shiftl_mul_pow2 by lia. change (2 ^ 8) with 256. change (2 ^ 16) with 65536. lia. }
  assert (Hu : 0 <= u < 65536).
  { assert (H0 : 0 <= u) by (apply Z.lor_nonneg; lia).
    split; [exact H0|].
    change 65536 with (2 ^ 16).
    apply Z.bounded_iff_bits_nonneg; [lia | exact H0 |].
    intros l Hl. unfold u. rewrite Z.lor_spec.
    rewrite (high_bits_clear (Bytes.to_Z lo) 16) by (change (2 ^ 16) with 65536; lia).
    rewrite (high_bits_clear (Z.shiftl (Bytes.to_Z hi) 8) 16) by lia.
    reflexivity. }
  destruct (u <? 32768) eqn:Hcmp; lia.
Qed.

(** Recursion of [int16_items] goes two bytes at a time; so does this
    induction principle. *)
Lemma pairs_ind {A} (P : list A -> Prop) :
  P [] -> (forall a, P [a]) -> (forall a b l, P l -> P (a :: b :: l)) ->
  forall l, P l.
Proof.
  intros Hnil Hone Hstep.
  assert (H : forall l, P l /\ forall a, P (a :: l)).
  { induction l as [|b l [IH1 IH2]].
    - split; [exact Hnil | exact Hone].
    - split; [apply IH2 | intros a; apply Hstep; exact IH1]. }
  intros l. apply H.
Qed.

Lemma int16_items_range : forall bs zs,
  int16_items bs = Some zs -> Forall (fun z => -32768 <= z <= 32767) zs.
Proof.
  induction bs as [| a | lo hi rest IH] using pairs_ind; intros zs H.
  - injection H as <-. constructor.
  - discriminate.
  - cbn [int16_items] in H. destruct (int16_items rest) as [zs'|]; [|discriminate].
    injection H as <-. constructor; [apply int16_of_range | apply IH; reflexivity].
Qed.

(** The number of items is half the number of bytes. *)
Lemma int16_items_length : forall bs zs,
  int16_items bs = Some zs -> length bs = (2 * length zs)%nat.
Proof.
  induction bs as [| a | lo hi rest IH] using pairs_ind; intros zs H.
  - injection H as <-. reflexivity.
  - discriminate.
  - cbn [int16_items] in H. destruct (int16_items rest) as [zs'|]; [|discriminate].
    injection H as <-. simpl. rewrite (IH zs' eq_refl). lia.
Qed.

Lemma normalize_range zs :
  Forall (fun z => -32768 <= z <= 32767) zs ->
  Forall (fun q => (-1 <= q /\ q <= 1)%Q) (normalize zs).
Proof.
  intros H. unfold normalize. apply Forall_map.
  eapply Forall_impl; [exact H|].
  intros z [Hlo Hhi]. unfold Qle. simpl. lia.
Qed.

(** * The claims *)

(** ** The returned tuple *)

(** C8: for every call that returns, whatever the provider answered, the
    returned tuple carries the sample rate 16000 and the format tag
    ["pcm16"]. *)
Theorem C8_fixed_rate_and_format rconf e text voice_code out rad tf w res :
  fst (_synthesize_single_python_helper rconf text voice_code out rad tf e w) = Ok res ->
  audio_sample_rate_of res = 16000 /\ audio_format_of res = "pcm16".
Proof.
  intros H. apply helper_Ok_inv in H.
  destruct H as (a & r & w1 & n & _ & _ & _ & _ & _ & Hres & _).
  unfold outcome_of_path in Hres.
  destruct (int16_items _) as [items|]; [|discriminate].
  injection Hres as <-. split; reflexivity.
Qed.

Lemma C8_fixed_rate_and_format_witness :
  let run := Demo.call (Demo.rconf (PyStr "v1") 3) None
               (Demo.environment 2 Demo.stems_tmp Demo.ffmpeg_works) in
  exists res, fst run = Ok res /\
    audio_sample_rate_of res = 16000 /\ audio_format_of res = "pcm16".
Proof.
  eexists. split; [vm_compute; reflexivity|].
  apply (C8_fixed_rate_and_format (Demo.rconf (PyStr "v1") 3)
           (Demo.environment 2 Demo.stems_tmp Demo.ffmpeg_works)
           "hello" "eng-USA" None true None (initial ∅)).
  vm_compute. reflexivity.
Defined.

(** C9: every element of the sample buffer of a call that returns lies in
    the closed interval from -1 to 1: each is a signed 16-bit integer
    divided by 32768. *)
Theorem C9_samples_in_unit_interval rconf e text voice_code out rad tf w res :
  fst (_synthesize_single_python_helper rconf text voice_code out rad tf e w) = Ok res ->
  Forall (fun q => (-1 <= q /\ q <= 1)%Q) (audio_samples_of res)
  /\ exists items, audio_samples_of res = map (fun z => z # 32768) items
       /\ Forall (fun z => -32768 <= z <= 32767) items.
Proof.
  intros H. apply helper_Ok_inv in H.
  destruct H as (a & r & w1 & n & _ & _ & _ & _ & _ & Hres & _).
  unfold outcome_of_path in Hres.
  destruct (int16_items _) as [items|] eqn:Hitems; [|discriminate].
  injection Hres as <-. apply int16_items_range in Hitems.
  split.
  - apply normalize_range. exact Hitems.
  - exists items. split; [reflexivity | exact Hitems].
Qed.

Lemma C9_samples_in_unit_interval_witness :
  let run := Demo.call (Demo.rconf (PyStr "v1") 1) (Some "/out.wav")
               (Demo.environment 0 Demo.stems_tmp Demo.ffmpeg_works) in
  exists res, fst run = Ok res /\
    Forall (fun q => (-1 <= q /\ q <= 1)%Q) (audio_samples_of res).
Proof.
  eexists. split; [vm_compute; reflexivity|].
  apply (C9_samples_in_unit_interval (Demo.rconf (PyStr "v1") 1)
           (Demo.environment 0 Demo.stems_tmp Demo.ffmpeg_works)
           "hello" "eng-USA" (Some "/out.wav") true None (initial ∅)).
  vm_compute. reflexivity.
Defined.

(** ** The voice code *)

(** C10: two calls that differ only in [voice_code] run alike: the same
    outcome, the same final state (files and trace of sleeps, POSTs and
    child processes), and every POST carries the one request whose URL ends
    in the configured voice-id setting. *)
Theorem C10_voice_code_unused rconf text vc1 vc2 out rad tf e w :
  _synthesize_single_python_helper rconf text vc1 out rad tf e w =
  _synthesize_single_python_helper rconf text vc2 out rad tf e w
  /\ exists k,
       posted (trace (snd (_synthesize_single_python_helper rconf text vc1 out rad tf e w)))
       = posted (trace w) ++
         replicate k
           {| req_url := URL ++ END_POINT ++ py_str (ELEVEN_LABS_VOICE_ID rconf);
              req_headers := request_headers rconf;
              req_json :=
                {| text := text;
                   settings :=
                     {| stability := py_str (ELEVEN_LABS_STABILITY rconf);
                        similarity_boost :=
                          py_str (ELEVEN_LABS_SIMILARITY_BOOST rconf) |} |} |}.
Proof.
  split; [reflexivity|].
  apply (helper_posted rconf e text vc1 out rad tf w).
Qed.

(** ** The attempt budget *)

Section Budget.

Variable rconf : RuntimeConfiguration.
Variable e : env.
Variables (text voice_code : string) (out : option string).
Variables (rad : bool) (tf : option string).

Let req : request :=
  request_of rconf (request_url (ELEVEN_LABS_VOICE_ID rconf)) (request_headers rconf) text.
Let d : Q := TTS_API_SLEEP rconf.
Let n : nat := Z.to_nat (TTS_API_RETRY_ATTEMPTS rconf).

(** C6: when each of the [attempts] POSTs of the budget is answered with a
    status other than 200, the call raises the error of the exhausted
    budget, [ValueError("All API requests returned status code != 200")],
    and ends in the state reached by exactly [attempts] attempts, a sleep
    and a POST each: no result, no further POST, no file touched. *)
Theorem C6_budget_exhausted w :
  Qle_bool 0 (TTS_API_SLEEP rconf) = true ->
  0 <= TTS_API_RETRY_ATTEMPTS rconf ->
  (forall i, (i < n)%nat ->
     exists r, provider e (i + posts w) req = PostReturns r /\ status_code r <> 200) ->
  _synthesize_single_python_helper rconf text voice_code out rad tf e w =
  (Raise (ValueError "All API requests returned status code != 200"),
   {| files := files w;
      trace := trace w ++ attempts_trace n d req;
      posts := n + posts w;
      tmps := tmps w |})
  /\ posted (attempts_trace n d req) = replicate n req.
Proof.
  intros Hd Hn Hall. split; [|apply posted_attempts_trace].
  destruct (post_loop_retries rconf e _ (request_headers rconf) text d Hd n 0%nat
              (TTS_API_RETRY_ATTEMPTS rconf) None w ltac:(unfold n; lia) Hall)
    as [resp' Hloop].
  rewrite Nat.add_0_r in Hloop. rewrite post_loop_0 in Hloop.
  replace (TTS_API_RETRY_ATTEMPTS rconf - Z.of_nat n) with 0 in Hloop by (unfold n; lia).
  simpl in Hloop.
  apply (helper_exhausted rconf e text voice_code out rad tf w 0 resp').
  - exact Hloop.
  - lia.
Qed.

(** The loop when the provider answers 200 to the last POST of the budget
    and another status to those before: exactly [attempts] attempts, a
    sleep before each POST, and the call goes on to the files and the child
    process; what it returns is built from the output path. *)
Lemma helper_last_attempt_200 w r :
  Qle_bool 0 (TTS_API_SLEEP rconf) = true ->
  (0 < n)%nat ->
  (forall i, (i < n - 1)%nat ->
     exists r', provider e (i + posts w) req = PostReturns r' /\ status_code r' <> 200) ->
  provider e (n - 1 + posts w) req = PostReturns r ->
  status_code r = 200 ->
  _synthesize_single_python_helper rconf text voice_code out rad tf e w =
  (outcome_of_path (output_tmp e (tmps w)),
   final_world e out r (after_attempts w n d req)).
Proof.
  intros Hd Hn Hall Hlast H200.
  destruct (post_loop_retries rconf e _ (request_headers rconf) text d Hd (n - 1) 1%nat
              (TTS_API_RETRY_ATTEMPTS rconf) None w ltac:(unfold n in *; lia) Hall)
    as [resp' Hloop].
  replace (n - 1 + 1)%nat with n in Hloop by lia.
  rewrite (post_loop_break rconf e _ (request_headers rconf) text d Hd 0%nat _ resp' _ r)
    in Hloop.
  - rewrite after_attempts_add in Hloop.
    replace (n - 1 + 1)%nat with n in Hloop by lia.
    apply (helper_after_break rconf e text voice_code out rad tf) in Hloop.
    + exact Hloop.
    + unfold n in *. lia.
  - unfold n in *. lia.
  - simpl. exact Hlast.
  - exact H200.
Qed.

End Budget.

Lemma C6_budget_exhausted_witness :
  Demo.call (Demo.rconf (PyStr "v1") 3) None
    {| provider := Demo.provider_busy; tmp_stem := Demo.stems_tmp;
       child := Demo.ffmpeg_works |}
  = (Raise (ValueError "All API requests returned status code != 200"),
     {| files := ∅;
        trace := [Sleep 1; Post (Demo.hello "v1"); Sleep 1; Post (Demo.hello "v1");
                  Sleep 1; Post (Demo.hello "v1")];
        posts := 3;
        tmps := 0 |}).
Proof.
  refine (proj1 (C6_budget_exhausted (Demo.rconf (PyStr "v1") 3)
            {| provider := Demo.provider_busy; tmp_stem := Demo.stems_tmp;
               child := Demo.ffmpeg_works |}
            "hello" "eng-USA" None true None (initial ∅) _ _ _)).
  - reflexivity.
  - simpl. lia.
  - intros i _. exists Demo.busy. split; [reflexivity | simpl; lia].
Defined.

(** C7, evaluated where the claim fails.  The budget is three attempts, the
    provider answers 429, 429, 200, and temporary files are made in the
    temporary directory of a Windows user, where their paths have
    forty-seven characters.  The endpoint
    is called exactly three times, a sleep of the configured delay before
    each call, and the third answer leaves the loop; but the call does not
    return: decoding the output path as 16-bit items raises.  Below [/tmp/],
    with paths of twenty characters, the same call returns.  The defect is
    the one of C1: the path of the output file is decoded, not the file. *)
Theorem C7_last_attempt_200_may_raise :
  let rc := Demo.rconf (PyStr "v1") 3 in
  let run := Demo.call rc None (Demo.environment 2 Demo.stems_windows Demo.ffmpeg_works) in
  let run' := Demo.call rc None (Demo.environment 2 Demo.stems_tmp Demo.ffmpeg_works) in
  posts (snd run) = 3%nat
  /\ trace (snd run) =
       attempts_trace 3 1 (Demo.hello "v1") ++
       [Popen (ffmpeg_argv "C:\Users\bob\AppData\Local\Temp\tmpw4m8z1cd.wav" "C:\Users\bob\AppData\Local\Temp\tmpq7x2k9ab.wav")]
  /\ fst run = Raise (ValueError "string size must be a multiple of element size")
  /\ trace (snd run') =
       attempts_trace 3 1 (Demo.hello "v1") ++
       [Popen (ffmpeg_argv "/tmp/tmpw4m8z1cd.wav" "/tmp/tmpq7x2k9ab.wav")]
  /\ exists res, fst run' = Ok res.
Proof.
  cbv zeta. repeat split; try (vm_compute; reflexivity).
  eexists. vm_compute. reflexivity.
Qed.

(** ** The returned duration and samples *)

(** What a call returns is built from the path of the output temporary
    file alone: neither the provider's answer nor the child process nor
    any file has a part in it. *)
Lemma helper_result_from_path rconf e text voice_code out rad tf w res :
  fst (_synthesize_single_python_helper rconf text voice_code out rad tf e w) = Ok res ->
  outcome_of_path (output_tmp e (tmps w)) = Ok res.
Proof.
  intros H. apply helper_Ok_inv in H.
  destruct H as (a & r & w1 & n & Hloop & _ & _ & _ & _ & Hres & _).
  apply post_loop_frame in Hloop. destruct Hloop as (_ & <- & _). exact Hres.
Qed.

(** C1, evaluated where the claim fails.  The provider answers 200 at once
    and the child process writes a canonical WAVE file of two frames to the
    output temporary file.  Its framing gives two frames at 16000 Hz, a
    duration of 2/16000 and the samples 16/32768 and 32/32768.  The call
    returns as duration the binary64 number nearest to 10/16000, half the
    twenty characters of the output path over the rate, and ten samples, the
    bytes of the path taken two by two. *)
Theorem C1_duration_and_samples_from_path :
  let run := Demo.call (Demo.rconf (PyStr "v1") 1) None
               (Demo.environment 0 Demo.stems_tmp Demo.ffmpeg_works) in
  files (snd run) !! "/tmp/tmpq7x2k9ab.wav" = Some Demo.transcoded
  /\ Spec.frame_count Demo.transcoded = 2
  /\ Spec.sample_rate Demo.transcoded = 16000
  /\ Spec.duration Demo.transcoded = (2 # 16000)%Q
  /\ Spec.samples Demo.transcoded = Some [16 # 32768; 32 # 32768]%Q
  /\ exists res,
       fst run = Ok res
       /\ audio_length_of res = S754_finite false 5764607523034235 (-63)
       /\ ((10 # 16000) - (1 # 9223372036854775808)
           <= Float.value (audio_length_of res))%Q
       /\ (Float.value (audio_length_of res)
           <= (10 # 16000) + (1 # 9223372036854775808))%Q
       /\ ~ (Float.value (audio_length_of res) == Spec.duration Demo.transcoded)%Q
       /\ audio_samples_of res =
            normalize [29743; 28781; 29743; 28781; 14193; 12920; 14699; 25185; 30510; 30305]
       /\ Some (audio_samples_of res) <> Spec.samples Demo.transcoded.
Proof.
  cbv zeta. repeat split; try (vm_compute; reflexivity).
  eexists. split; [vm_compute; reflexivity|].
  repeat split; try (vm_compute; reflexivity).
  - vm_compute. discriminate.
  - vm_compute. discriminate.
  - vm_compute. discriminate.
  - vm_compute. discriminate.
Qed.

(** ** Temporary files *)

(** C2, evaluated where the claim fails.  After a call that returns, the
    output temporary file still holds what the child process wrote and the
    input temporary file still holds the response; after a call that raises
    once the temporary files are made, both are still there as well.  The
    helper has no statement that removes a file. *)
Theorem C2_temporary_files_remain :
  let rc := Demo.rconf (PyStr "v1") 1 in
  let ok := Demo.call rc None (Demo.environment 0 Demo.stems_tmp Demo.ffmpeg_works) in
  let bad := Demo.call rc None (Demo.environment 0 Demo.stems_windows Demo.ffmpeg_fails) in
  (exists res, fst ok = Ok res)
  /\ files (snd ok) !! "/tmp/tmpq7x2k9ab.wav" = Some Demo.transcoded
  /\ files (snd ok) !! "/tmp/tmpw4m8z1cd.wav" = Some (content Demo.served)
  /\ fst bad = Raise (ValueError "string size must be a multiple of element size")
  /\ files (snd bad) !! "C:\Users\bob\AppData\Local\Temp\tmpq7x2k9ab.wav" = Some []
  /\ files (snd bad) !! "C:\Users\bob\AppData\Local\Temp\tmpw4m8z1cd.wav" = Some (content Demo.served).
Proof.
  cbv zeta. split; [eexists; vm_compute; reflexivity|].
  repeat split; vm_compute; reflexivity.
Qed.

(** In general: after a call that returns, both temporary files exist
    unless the child process itself removed them. *)
Lemma temporary_files_remain rconf e text voice_code out rad tf w res :
  fst (_synthesize_single_python_helper rconf text voice_code out rad tf e w) = Ok res ->
  (forall argv fs rc fs' p,
     child e argv fs = Exits rc fs' -> is_Some (fs !! p) -> is_Some (fs' !! p)) ->
  let fs := files (snd (_synthesize_single_python_helper rconf text voice_code out rad tf e w)) in
  is_Some (fs !! output_tmp e (tmps w)) /\ is_Some (fs !! input_tmp e (tmps w)).
Proof.
  intros H Hkeep fs. apply helper_Ok_inv in H.
  destruct H as (a & r & w1 & n & Hloop & _ & _ & _ & _ & _ & Hsnd).
  apply post_loop_frame in Hloop. destruct Hloop as (_ & Ht & _).
  unfold fs. rewrite Hsnd. unfold final_world. cbn [files]. rewrite Ht.
  set (argv := ffmpeg_argv _ _).
  set (fs2 := files_staged e (tmps w) r (files_saved out r (files w1))).
  assert (H2 : is_Some (fs2 !! output_tmp e (tmps w)) /\ is_Some (fs2 !! input_tmp e (tmps w))).
  { unfold fs2, files_staged. split.
    - destruct (decide (input_tmp e (tmps w) = output_tmp e (tmps w))) as [Heq | Hne].
      + rewrite Heq. rewrite lookup_insert_eq. eauto.
      + rewrite !lookup_insert_ne by exact Hne. rewrite lookup_insert_eq. eauto.
    - rewrite lookup_insert_eq. eauto. }
  unfold files_transcoded.
  destruct (child e argv fs2) as [msg | rc fs'] eqn:Hc; [exact H2|].
  destruct H2 as [Ho Hi]. split; eapply Hkeep; eauto.
Qed.

(** ** The child process *)

(** C3 as stated fails: with the program missing, with exit status 1 and
    nothing written, and with exit status 1 and the output file gone, the
    call returns a tuple all the same. *)
Lemma C3_transcode_failure_returns :
  let rc := Demo.rconf (PyStr "v1") 1 in
  let missing := Demo.call rc None (Demo.environment 0 Demo.stems_tmp Demo.ffmpeg_missing) in
  let failed := Demo.call rc None (Demo.environment 0 Demo.stems_tmp Demo.ffmpeg_fails) in
  let gone := Demo.call rc None (Demo.environment 0 Demo.stems_tmp Demo.ffmpeg_no_output) in
  (exists res, fst missing = Ok res)
  /\ (exists res, fst failed = Ok res /\
        files (snd failed) !! "/tmp/tmpq7x2k9ab.wav" = Some [])
  /\ (exists res, fst gone = Ok res /\
        files (snd gone) !! "/tmp/tmpq7x2k9ab.wav" = None).
Proof.
  cbv zeta. split; [|split].
  - eexists. vm_compute. reflexivity.
  - eexists. split; vm_compute; reflexivity.
  - eexists. split; vm_compute; reflexivity.
Qed.

(** C3, amended: a child process that cannot be started, or that exits
    with a status other than 0, does not make the call fail by itself.  The
    [OSError] of the failed start is caught and the exit status is never
    read, so the call goes on and ends, outcome and final state alike, as it
    does with any other child process that leaves the same files: in
    particular with one that exits with status 0. *)
Theorem C3_spawn_error_and_exit_status_ignored rconf e c1 c2 text voice_code out rad tf w :
  (forall argv fs, files_left (c1 argv fs) fs = files_left (c2 argv fs) fs) ->
  _synthesize_single_python_helper rconf text voice_code out rad tf (with_child e c1) w
  = _synthesize_single_python_helper rconf text voice_code out rad tf (with_child e c2) w.
Proof.
  intros Hsame.
  assert (Hloop : forall c o w1,
            post_loop rconf (Z.to_nat (TTS_API_RETRY_ATTEMPTS rconf))
              (request_url (ELEVEN_LABS_VOICE_ID rconf)) (request_headers rconf) text
              (TTS_API_SLEEP rconf) (TTS_API_RETRY_ATTEMPTS rconf) None (with_child e c1) w
            = (o, w1) ->
            post_loop rconf (Z.to_nat (TTS_API_RETRY_ATTEMPTS rconf))
              (request_url (ELEVEN_LABS_VOICE_ID rconf)) (request_headers rconf) text
              (TTS_API_SLEEP rconf) (TTS_API_RETRY_ATTEMPTS rconf) None (with_child e c) w
            = (o, w1)).
  { intros c o w1 H. rewrite post_loop_with_child in H. rewrite post_loop_with_child.
    exact H. }
  destruct (helper_cases rconf (with_child e c1) text voice_code out rad tf w)
    as [(x & w1 & Hl & ->) | [(a & resp & w1 & Hl & Ha & ->) |
        (a & r & w1 & n & Hl & Ha & _ & _ & _ & ->)]];
    apply (Hloop c2) in Hl.
  - symmetry. apply (helper_loop_raises rconf (with_child e c2) text voice_code out rad tf w
                       x w1 Hl).
  - symmetry. apply (helper_exhausted rconf (with_child e c2) text voice_code out rad tf w
                       a resp w1 Hl Ha).
  - rewrite (helper_after_break rconf (with_child e c2) text voice_code out rad tf w a r w1
               Hl Ha).
    unfold final_world, files_transcoded, files_left in *.
    cbn [child with_child]. rewrite Hsame. reflexivity.
Qed.

Lemma C3_spawn_error_and_exit_status_ignored_witness :
  let rc := Demo.rconf (PyStr "v1") 1 in
  Demo.call rc None (Demo.environment 0 Demo.stems_tmp Demo.ffmpeg_missing)
  = Demo.call rc None (Demo.environment 0 Demo.stems_tmp Demo.ffmpeg_idle)
  /\ Demo.call rc None (Demo.environment 0 Demo.stems_tmp Demo.ffmpeg_fails)
     = Demo.call rc None (Demo.environment 0 Demo.stems_tmp Demo.ffmpeg_idle).
Proof.
  cbv zeta. split.
  - apply (C3_spawn_error_and_exit_status_ignored (Demo.rconf (PyStr "v1") 1)
             (Demo.environment 0 Demo.stems_tmp Demo.ffmpeg_idle)
             Demo.ffmpeg_missing Demo.ffmpeg_idle
             "hello" "eng-USA" None true None (initial ∅)).
    intros argv fs. reflexivity.
  - apply (C3_spawn_error_and_exit_status_ignored (Demo.rconf (PyStr "v1") 1)
             (Demo.environment 0 Demo.stems_tmp Demo.ffmpeg_idle)
             Demo.ffmpeg_fails Demo.ffmpeg_idle
             "hello" "eng-USA" None true None (initial ∅)).
    intros argv fs. reflexivity.
Defined.

(** ** The saved file *)

(** C4 as stated fails: the call returns, the child process has written
    the canonical file to the output temporary file, and the file at
    [output_file_path] holds other bytes: a WAVE header followed by the six
    bytes of the provider's answer. *)
Lemma C4_saved_file_not_transcoded :
  let run := Demo.call (Demo.rconf (PyStr "v1") 1) (Some "/out.wav")
               (Demo.environment 0 Demo.stems_tmp Demo.ffmpeg_works) in
  (exists res, fst run = Ok res)
  /\ files (snd run) !! "/tmp/tmpq7x2k9ab.wav" = Some Demo.transcoded
  /\ files (snd run) !! "/out.wav" =
       Some (Wave.header saved_params 6 ++ [x01; x02; x03; x04; x05; x06])
  /\ files (snd run) !! "/out.wav" <> Some Demo.transcoded.
Proof.
  cbv zeta. split; [eexists; vm_compute; reflexivity|].
  repeat split; try (vm_compute; reflexivity).
  vm_compute. discriminate.
Qed.

(** C4, amended: when [output_file_path] is given and the call returns, the
    file at that path is the WAVE file the helper writes before it makes
    the temporary files: a header for one channel, two bytes a sample and
    16000 frames a second, followed by the body of the 200 answer to the
    last POST, as received.  (The path is not one of the two temporary
    paths and the child process leaves it alone.) *)
Theorem C4_saved_file_is_framed_response rconf e text voice_code path rad tf w res :
  fst (_synthesize_single_python_helper rconf text voice_code (Some path) rad tf e w)
    = Ok res ->
  output_tmp e (tmps w) <> path ->
  input_tmp e (tmps w) <> path ->
  (forall fs rc fs',
     child e (ffmpeg_argv (input_tmp e (tmps w)) (output_tmp e (tmps w))) fs = Exits rc fs' ->
     fs' !! path = fs !! path) ->
  let w' := snd (_synthesize_single_python_helper rconf text voice_code (Some path) rad tf e w) in
  exists r n,
    posts w' = S n
    /\ provider e n
         (request_of rconf (request_url (ELEVEN_LABS_VOICE_ID rconf))
            (request_headers rconf) text) = PostReturns r
    /\ status_code r = 200
    /\ files w' !! path =
         Some (Wave.file_bytes
                 {| Wave.nchannels := 1; Wave.sampwidth := 2; Wave.framerate := 16000 |}
                 (content r)).
Proof.
  intros H Hout Hin Hchild w'. apply helper_Ok_inv in H.
  destruct H as (a & r & w1 & n & Hloop & _ & H200 & Hn & Hp & _ & Hsnd).
  apply post_loop_frame in Hloop. destruct Hloop as (_ & Ht & _).
  exists r, n. unfold w'. rewrite Hsnd. unfold final_world. cbn [files posts].
  repeat split; try assumption.
  rewrite Ht. set (argv := ffmpeg_argv _ _).
  assert (Hstaged :
    files_staged e (tmps w) r (files_saved (Some path) r (files w1)) !! path
    = Some (Wave.file_bytes saved_params (content r))).
  { unfold files_staged. rewrite !lookup_insert_ne by assumption.
    unfold files_saved. apply lookup_insert_eq. }
  unfold files_transcoded.
  destruct (child e argv _) as [msg | rc fs'] eqn:Hc.
  - exact Hstaged.
  - rewrite (Hchild _ _ _ Hc). exact Hstaged.
Qed.

Lemma C4_saved_file_is_framed_response_witness :
  let run := Demo.call (Demo.rconf (PyStr "v1") 1) (Some "/out.wav")
               (Demo.environment 0 Demo.stems_tmp Demo.ffmpeg_works) in
  exists r n,
    posts (snd run) = S n
    /\ Demo.provider_after 0 n (Demo.hello "v1") = PostReturns r
    /\ status_code r = 200
    /\ files (snd run) !! "/out.wav" =
         Some (Wave.file_bytes
                 {| Wave.nchannels := 1; Wave.sampwidth := 2; Wave.framerate := 16000 |}
                 (content r)).
Proof.
  eapply (C4_saved_file_is_framed_response (Demo.rconf (PyStr "v1") 1)
            (Demo.environment 0 Demo.stems_tmp Demo.ffmpeg_works)
            "hello" "eng-USA" "/out.wav" true None (initial ∅)).
  - vm_compute. reflexivity.
  - vm_compute. discriminate.
  - vm_compute. discriminate.
  - intros fs rc fs' Hc. unfold Demo.environment, Demo.ffmpeg_works in Hc.
    cbn [child] in Hc. injection Hc as _ <-.
    apply lookup_insert_ne. vm_compute. discriminate.
Defined.

(** ** Voice resolution *)

Lemma table_values_nonempty L :
  Forall (fun kv : string * string => kv.2 <> "") (LANGUAGE_TO_VOICE_CODE_entries L).
Proof. unfold LANGUAGE_TO_VOICE_CODE_entries. repeat constructor; discriminate. Qed.

(** A lookup in the table, by cases: an entry of the display with a name
    that is not empty, or no entry because the code is not a key. *)
Lemma table_lookup L (code : string) :
  match LANGUAGE_TO_VOICE_CODE L !! code with
  | Some voice => (code, voice) ∈ LANGUAGE_TO_VOICE_CODE_entries L /\ voice <> ""
  | None => code ∉ supported_codes L
  end.
Proof.
  unfold LANGUAGE_TO_VOICE_CODE, dict_display, supported_codes.
  destruct (list_to_map (reverse (LANGUAGE_TO_VOICE_CODE_entries L)) !! code)
    as [voice|] eqn:H.
  - apply elem_of_list_to_map_2 in H. apply elem_of_reverse in H.
    split; [exact H|].
    pose proof (table_values_nonempty L) as Hall.
    rewrite Forall_forall in Hall. apply (Hall (code, voice)). exact H.
  - apply not_elem_of_list_to_map_2 in H.
    rewrite fmap_reverse in H. rewrite elem_of_reverse in H. exact H.
Qed.

(** C5 as stated fails.  With no voice id configured, the described
    resolution gives ["Joanna"] for the supported code ["eng-USA"] and a
    configuration error for the code ["tlh"], which is not in the table.
    The helper posts to the URL ending in ["None"] in both cases, and in
    the second it returns a tuple. *)
Lemma C5_no_locale_fallback :
  let rc := Demo.rconf PyNone 1 in
  let e := Demo.environment 0 Demo.stems_tmp Demo.ffmpeg_works in
  let run code :=
    _synthesize_single_python_helper rc "hello" code None true None e (initial ∅) in
  Spec.resolveVoice (LANGUAGE_TO_VOICE_CODE Demo.iso) PyNone "eng-USA" = Some "Joanna"
  /\ posted (trace (snd (run "eng-USA"))) = [Demo.hello "None"]
  /\ Spec.resolveVoice (LANGUAGE_TO_VOICE_CODE Demo.iso) PyNone "tlh" = None
  /\ posted (trace (snd (run "tlh"))) = [Demo.hello "None"]
  /\ exists res, fst (run "tlh") = Ok res.
Proof.
  cbv zeta. repeat split; try (vm_compute; reflexivity).
  eexists. vm_compute. reflexivity.
Qed.

(** C5, amended: the voice identifier of a call is the configured voice-id
    setting and nothing else: every POST goes to the URL made of the base,
    the end point and the text of that setting (["None"] when it is unset),
    whatever the voice code.  The table gives each of its locale codes a
    voice name that is not empty, and has no entry for any other code. *)
Theorem C5_voice_id_from_configuration L rconf e text voice_code out rad tf w :
  (exists k,
     map req_url
       (posted (trace (snd (_synthesize_single_python_helper rconf text voice_code
                              out rad tf e w))))
     = map req_url (posted (trace w)) ++
       replicate k (URL ++ END_POINT ++ py_str (ELEVEN_LABS_VOICE_ID rconf))%string)
  /\ (forall code : string,
        match LANGUAGE_TO_VOICE_CODE L !! code with
        | Some voice => code ∈ supported_codes L /\ voice <> ""
        | None => code ∉ supported_codes L
        end).
Proof.
  split.
  - destruct (helper_posted rconf e text voice_code out rad tf w) as [k Hk].
    exists k. rewrite Hk. rewrite map_app. f_equal.
    clear Hk. induction k as [|k IH]; simpl; [reflexivity | f_equal; exact IH].
  - intros code. pose proof (table_lookup L code) as H.
    destruct (LANGUAGE_TO_VOICE_CODE L !! code) as [voice|]; [|exact H].
    destruct H as [Hin Hne]. split; [|exact Hne].
    unfold supported_codes. apply list_elem_of_fmap. exists (code, voice). auto.
Qed.

(** * Further properties of the code *)

(** ** Text replacement *)

Lemma append_empty (b : string) : ("" ++ b)%string = b.
Proof. reflexivity. Qed.

Lemma append_cons c (a b : string) : (String c a ++ b)%string = String c (a ++ b)%string.
Proof. reflexivity. Qed.

Lemma string_length_append (a b : string) :
  String.length (a ++ b)%string = (String.length a + String.length b)%nat.
Proof.
  induction a as [|c a IH]; [reflexivity|].
  rewrite append_cons. cbn [String.length]. rewrite IH. reflexivity.
Qed.

Lemma prefix_self_append (a b : string) : String.prefix a (a ++ b)%string = true.
Proof.
  induction a as [|c a IH].
  - destruct b; reflexivity.
  - rewrite append_cons. cbn [String.prefix].
    destruct (ascii_dec c c) as [_ | Hne]; [exact IH | contradiction].
Qed.

Lemma string_append_nil (a : string) : (a ++ "")%string = a.
Proof.
  induction a as [|x a IH]; [reflexivity|]. rewrite append_cons, IH. reflexivity.
Qed.

Lemma prefix_self (a : string) : (0 < String.length a)%nat -> String.prefix a a = true.
Proof.
  intros _. pose proof (prefix_self_append a "") as H.
  rewrite string_append_nil in H. exact H.
Qed.

Section Replace.

Variables old new : string.
Hypothesis old_not_empty : (0 < String.length old)%nat.
Hypothesis new_not_shorter : (String.length old <= String.length new)%nat.

(** Replacing never shortens a text when [new] is at least as long as
    [old]. *)
Lemma replace_from_length : forall s skip,
  (String.length s - skip <= String.length (replace_from old new skip s))%nat.
Proof.
  induction s as [|c s IH]; intros skip; [simpl; lia|].
  destruct skip as [|k]; cbn [replace_from].
  - destruct (String.prefix old (String c s)).
    + rewrite string_length_append. specialize (IH (String.length old - 1)%nat).
      cbn [String.length]. lia.
    + cbn [String.length]. specialize (IH 0%nat). lia.
  - cbn [String.length]. specialize (IH k). lia.
Qed.

(** A text that ends in [old] gets longer when [new] is longer than
    [old]. *)
Lemma replace_from_longer (Hlonger : (String.length old < String.length new)%nat) :
  forall stem skip,
  (skip <= String.length stem)%nat ->
  (String.length (stem ++ old)%string - skip
   < String.length (replace_from old new skip (stem ++ old)%string))%nat.
Proof.
  induction stem as [|c stem IH]; intros skip Hskip.
  - cbn [String.length] in Hskip. assert (skip = 0%nat) as -> by lia.
    rewrite append_empty. pose proof (prefix_self old old_not_empty) as Hp.
    pose proof replace_from_length as Hge.
    destruct old as [|c0 old']; [simpl in old_not_empty; lia|].
    cbn [replace_from]. rewrite Hp. rewrite string_length_append.
    specialize (Hge old' (String.length (String c0 old') - 1)%nat).
    cbn [String.length] in *. lia.
  - rewrite append_cons. destruct skip as [|k]; cbn [replace_from].
    + destruct (String.prefix old (String c (stem ++ old))).
      * rewrite string_length_append.
        pose proof (replace_from_length (stem ++ old)%string (String.length old - 1)) as Hge.
        cbn [String.length]. lia.
      * cbn [String.length]. specialize (IH 0%nat ltac:(lia)). lia.
    + cbn [String.length] in *. specialize (IH k ltac:(lia)). lia.
Qed.

End Replace.

(** The output path of [trim_last_frame] differs from the path of its
    temporary file, whatever name the temporary file gets. *)
Lemma trimmed_path_differs (stem : string) :
  py_replace (stem ++ ".wav") ".wav" "_trimmed.wav" <> (stem ++ ".wav")%string.
Proof.
  intros Heq.
  pose proof (replace_from_longer ".wav" "_trimmed.wav" ltac:(simpl; lia) ltac:(simpl; lia)
                ltac:(simpl; lia) stem 0%nat ltac:(lia)) as Hlen.
  unfold py_replace in Heq. rewrite Heq in Hlen. lia.
Qed.

(** ** [trim_last_frame] *)

Lemma remove_if_exists_run path e fs tr p t :
  remove_if_exists path e {| files := fs; trace := tr; posts := p; tmps := t |} =
  (Ok tt, {| files := delete path fs; trace := tr; posts := p; tmps := t |}).
Proof.
  unfold remove_if_exists, bind, os_path_exists.
  cbn [files trace posts tmps].
  destruct (fs !! path) as [data|] eqn:Hd.
  - rewrite bool_decide_eq_true_2 by eauto.
    unfold os_remove, set_files. cbn [files trace posts tmps]. rewrite Hd. reflexivity.
  - rewrite bool_decide_eq_false_2 by (intros [x Hx]; discriminate).
    rewrite (delete_id _ _ Hd). reflexivity.
Qed.

(** The [except] clause, run in any state: both paths removed, [None]
    returned. *)
Lemma trim_handler_run temp out e fs tr p t :
  (exec remove_if_exists temp in
   exec remove_if_exists out in
   ret (@None (list byte))) e {| files := fs; trace := tr; posts := p; tmps := t |}
  = (Ok None, {| files := delete out (delete temp fs); trace := tr; posts := p; tmps := t |}).
Proof.
  unfold bind at 1. rewrite remove_if_exists_run.
  unfold bind at 1. rewrite remove_if_exists_run. reflexivity.
Qed.

(** The whole of [trim_last_frame], by the end of the child process. *)
Lemma trim_last_frame_run content n e w :
  let temp := (tmp_stem e (tmps w) ++ ".wav")%string in
  let out := py_replace temp ".wav" "_trimmed.wav" in
  let argv := trim_argv temp out n in
  let staged := <[temp := content]> (files w) in
  trim_last_frame content n e w =
  (Ok match child e argv staged with
      | SpawnFails _ => None
      | Exits _ fs' =>
          match fs' !! out, fs' !! temp with
          | Some data, Some _ => Some data
          | _, _ => None
          end
      end,
   {| files := delete out (delete temp
                 match child e argv staged with
                 | SpawnFails _ => staged
                 | Exits _ fs' => fs'
                 end);
      trace := trace w ++ [Popen argv];
      posts := posts w;
      tmps := S (tmps w) |}).
Proof.
  intros temp out argv staged.
  assert (Hne : temp <> out).
  { intros Heq. apply (trimmed_path_differs (tmp_stem e (tmps w))). symmetry. exact Heq. }
  unfold trim_last_frame. unfold bind at 1. unfold NamedTemporaryFile at 1.
  fold temp. fold out. fold argv. fold staged.
  unfold try_except.
  unfold bind at 1. unfold subprocess_run at 1.
  unfold bind at 1. unfold emit at 1. cbn [files trace posts tmps].
  unfold bind at 1. unfold get_files at 1. cbn [files trace posts tmps].
  destruct (child e argv staged) as [msg | rc fs'].
  - apply trim_handler_run.
  - unfold set_files at 1. cbn [snd files trace posts tmps].
    unfold bind at 1. unfold read_file at 1. cbn [files trace posts tmps].
    destruct (fs' !! out) as [data|] eqn:Hout.
    + unfold bind at 1. unfold os_remove at 1. cbn [files trace posts tmps].
      destruct (fs' !! temp) as [kept|] eqn:Htemp.
      * unfold set_files at 1. cbn [files trace posts tmps].
        unfold bind at 1. unfold os_remove at 1. cbn [files trace posts tmps].
        rewrite (lookup_delete_ne fs' temp out Hne). rewrite Hout.
        unfold set_files, ret. cbn [files trace posts tmps]. reflexivity.
      * apply trim_handler_run.
    + apply trim_handler_run.
Qed.

(** [trim_last_frame] never raises: whatever the child process does, the
    call returns, having started the one child process and made no POST. *)
Theorem trim_last_frame_never_raises content n e w :
  let run := trim_last_frame content n e w in
  (exists result, fst run = Ok result)
  /\ (exists argv, trace (snd run) = trace w ++ [Popen argv])
  /\ posts (snd run) = posts w.
Proof.
  cbv zeta. rewrite trim_last_frame_run. cbn [fst snd trace posts].
  split; [eauto|]. split; [eauto | reflexivity].
Qed.

(** [trim_last_frame] leaves neither its temporary file nor its output file
    behind, on the path that returns the audio and on every path that
    returns [None]. *)
Theorem trim_last_frame_cleans_up content n e w :
  let temp := (tmp_stem e (tmps w) ++ ".wav")%string in
  let out := py_replace temp ".wav" "_trimmed.wav" in
  let fs := files (snd (trim_last_frame content n e w)) in
  fs !! temp = None /\ fs !! out = None.
Proof.
  cbv zeta. rewrite trim_last_frame_run. cbn [snd files]. split.
  - destruct (decide (py_replace (tmp_stem e (tmps w) ++ ".wav") ".wav" "_trimmed.wav"
                      = (tmp_stem e (tmps w) ++ ".wav")%string)) as [Heq | Hne].
    + rewrite Heq. apply lookup_delete_eq.
    + rewrite lookup_delete_ne by exact Hne. apply lookup_delete_eq.
  - apply lookup_delete_eq.
Qed.

(** [trim_last_frame] returns audio exactly when the child process could be
    started and, at its end, the output file and the temporary file both
    exist; the audio is then the content of the output file.  The exit
    status has no part in it. *)
Theorem trim_last_frame_returns_output content n e w data :
  let temp := (tmp_stem e (tmps w) ++ ".wav")%string in
  let out := py_replace temp ".wav" "_trimmed.wav" in
  fst (trim_last_frame content n e w) = Ok (Some data)
  <-> exists rc fs',
        child e (trim_argv temp out n) (<[temp := content]> (files w)) = Exits rc fs'
        /\ fs' !! out = Some data /\ is_Some (fs' !! temp).
Proof.
  cbv zeta. rewrite trim_last_frame_run. cbn [fst].
  destruct (child e _ _) as [msg | rc fs'].
  - split; [discriminate | intros (rc & fs' & H & _); discriminate].
  - split.
    + intros H. exists rc, fs'. split; [reflexivity|].
      destruct (fs' !! py_replace _ _ _) as [d|]; [|discriminate].
      destruct (fs' !! (tmp_stem e (tmps w) ++ ".wav")%string) as [kept|]; [|discriminate].
      injection H as ->. split; [reflexivity | eauto].
    + intros (rc0 & fs0 & [= <- <-] & -> & [kept ->]). reflexivity.
Qed.

(** [trim_last_frame] changes no other file: a path that is neither of its
    two and that the child process leaves alone holds after the call what it
    held before. *)
Theorem trim_last_frame_frame content n e w (path : string) :
  let temp := (tmp_stem e (tmps w) ++ ".wav")%string in
  let out := py_replace temp ".wav" "_trimmed.wav" in
  path <> temp -> path <> out ->
  (forall rc fs',
     child e (trim_argv temp out n) (<[temp := content]> (files w)) = Exits rc fs' ->
     fs' !! path = (<[temp := content]> (files w)) !! path) ->
  files (snd (trim_last_frame content n e w)) !! path = files w !! path.
Proof.
  cbv zeta. intros Htemp Hout Hchild. rewrite trim_last_frame_run. cbn [snd files].
  rewrite !lookup_delete_ne by congruence.
  destruct (child e _ _) as [msg | rc fs'] eqn:Hc.
  - apply lookup_insert_ne. congruence.
  - rewrite (Hchild rc fs' eq_refl). apply lookup_insert_ne. congruence.
Qed.

Lemma trim_last_frame_returns_output_witness :
  fst (trim_last_frame [x01; x02; x03; x04] 2
         (Demo.environment 0 Demo.stems_tmp Demo.ffmpeg_works) (initial ∅))
  = Ok (Some Demo.transcoded).
Proof.
  apply (proj2 (trim_last_frame_returns_output [x01; x02; x03; x04] 2
                  (Demo.environment 0 Demo.stems_tmp Demo.ffmpeg_works) (initial ∅)
                  Demo.transcoded)).
  eexists _, _. split; [reflexivity|].
  split; [vm_compute; reflexivity | eexists; vm_compute; reflexivity].
Defined.

Lemma trim_last_frame_frame_witness :
  let e := Demo.environment 0 Demo.stems_tmp Demo.ffmpeg_works in
  let w := initial {["/keep.wav" := [x2a]]} in
  files (snd (trim_last_frame [x01; x02; x03; x04] 2 e w)) !! "/keep.wav"
  = files w !! "/keep.wav"
  /\ files w !! "/keep.wav" = Some [x2a].
Proof.
  cbv zeta. split; [|vm_compute; reflexivity].
  apply (trim_last_frame_frame [x01; x02; x03; x04] 2
           (Demo.environment 0 Demo.stems_tmp Demo.ffmpeg_works)
           (initial {["/keep.wav" := [x2a]]}) "/keep.wav").
  - vm_compute. discriminate.
  - vm_compute. discriminate.
  - intros rc fs' Hc. unfold Demo.environment, Demo.ffmpeg_works in Hc.
    cbn [child] in Hc. injection Hc as _ <-.
    apply lookup_insert_ne. vm_compute. discriminate.
Defined.

(** ** More on the retry loop of the helper *)

Section LoopBound.

Variable rconf : RuntimeConfiguration.
Variables (url : string) (headers : list (string * pyval)) (text : string).
Variable d : Q.

Let req : request := request_of rconf url headers text.

(** However the loop ends, it has made some [k] attempts, no more than the
    budget, and nothing but the trace and the POST counter has moved. *)
Lemma post_loop_bounded e fuel : forall attempts resp w o w',
  post_loop rconf fuel url headers text d attempts resp e w = (o, w') ->
  exists k, (k <= Z.to_nat attempts)%nat /\ w' = after_attempts w k d req.
Proof.
  induction fuel as [|fuel IH]; intros attempts resp w o w' H.
  - rewrite post_loop_0 in H. exists 0%nat. rewrite after_attempts_0.
    split; [lia|]. destruct (attempts >? 0); congruence.
  - rewrite post_loop_unfold in H. fold req in H.
    assert (Hzero : forall o0, (o0, w) = (o, w') ->
              exists k, (k <= Z.to_nat attempts)%nat /\ w' = after_attempts w k d req).
    { intros o0 [= _ <-]. exists 0%nat. rewrite after_attempts_0. split; [lia | reflexivity]. }
    destruct (attempts >? 0) eqn:Hgt; [|exact (Hzero _ H)].
    assert (Hone : forall o0, (o0, after_attempts w 1 d req) = (o, w') ->
              exists k, (k <= Z.to_nat attempts)%nat /\ w' = after_attempts w k d req).
    { intros o0 [= _ <-]. exists 1%nat. split; [lia | reflexivity]. }
    destruct (Qle_bool 0 d); [|exact (Hzero _ H)].
    destruct (provider e (posts w) req) as [x | r]; [exact (Hone _ H)|].
    destruct (status_code r =? 200); [exact (Hone _ H)|].
    apply IH in H. destruct H as (k & Hk & ->).
    exists (S k). split; [lia|]. apply after_attempts_S.
Qed.

End LoopBound.

Section HelperEdges.

Variable rconf : RuntimeConfiguration.
Variable e : env.
Variables (text voice_code : string) (out : option string).
Variables (rad : bool) (tf : option string).

Let req : request :=
  request_of rconf (request_url (ELEVEN_LABS_VOICE_ID rconf)) (request_headers rconf) text.
Let d : Q := TTS_API_SLEEP rconf.
Let n : nat := Z.to_nat (TTS_API_RETRY_ATTEMPTS rconf).
Let helper : M synthesis :=
  _synthesize_single_python_helper rconf text voice_code out rad tf.

(** With an attempt count of zero or less the call sleeps for nothing and
    posts nothing: it raises the error of the exhausted budget in the state
    it started in. *)
Theorem no_budget_no_post w :
  TTS_API_RETRY_ATTEMPTS rconf <= 0 ->
  helper e w = (Raise (ValueError "All API requests returned status code != 200"), w).
Proof.
  intros Hle.
  apply (helper_exhausted rconf e text voice_code out rad tf w
           (TTS_API_RETRY_ATTEMPTS rconf) None w); [|exact Hle].
  replace (Z.to_nat (TTS_API_RETRY_ATTEMPTS rconf)) with 0%nat by lia.
  rewrite post_loop_0. destruct (TTS_API_RETRY_ATTEMPTS rconf >? 0) eqn:Hgt; [lia | reflexivity].
Qed.

(** An exception of [requests.post] is fatal: after [k] answers other than
    200, with budget left, a POST that raises ends the call with a
    [ValueError] after [k + 1] attempts; the rest of the budget is not used
    and no file is touched.  The message of the [ValueError] is the one
    [log_exc] forms: the helper's text, [" : "], and the text of the
    exception of the POST. *)
Theorem post_exception_is_fatal w k x :
  Qle_bool 0 (TTS_API_SLEEP rconf) = true ->
  (k < n)%nat ->
  (forall i, (i < k)%nat ->
     exists r, provider e (i + posts w) req = PostReturns r /\ status_code r <> 200) ->
  provider e (k + posts w) req = PostRaises x ->
  helper e w =
  (Raise (ValueError
            ("Unexpected exception on HTTP POST. Are you offline?"
             ++ " : " ++ exn_str x)%string),
   {| files := files w;
      trace := trace w ++ attempts_trace (S k) d req;
      posts := S k + posts w;
      tmps := tmps w |}).
Proof.
  intros Hd Hk Hall Hx.
  destruct (post_loop_retries rconf e _ (request_headers rconf) text d Hd k (n - k)%nat
              (TTS_API_RETRY_ATTEMPTS rconf) None w ltac:(unfold n in *; lia) Hall)
    as [resp' Hloop].
  replace (k + (n - k))%nat with n in Hloop by lia.
  destruct (n - k)%nat as [|fuel] eqn:Hfuel; [lia|].
  rewrite post_loop_unfold in Hloop.
  destruct (TTS_API_RETRY_ATTEMPTS rconf - Z.of_nat k >? 0) eqn:Hgt;
    [|unfold n in *; lia].
  fold d in Hd. rewrite Hd in Hloop.
  cbn [posts after_attempts] in Hloop. fold req in Hloop. rewrite Hx in Hloop.
  fold (after_attempts w k d req) in Hloop. rewrite after_attempts_add in Hloop.
  replace (k + 1)%nat with (S k) in Hloop by lia.
  apply (helper_loop_raises rconf e text voice_code out rad tf) in Hloop.
  exact Hloop.
Qed.

(** The first 200 ends the loop: after [k] answers other than 200, with
    budget left, a 200 answer leaves the loop after [k + 1] attempts, the
    rest of the budget unused, and the call goes on to the files and the
    child process. *)
Theorem first_200_ends_loop w k r :
  Qle_bool 0 (TTS_API_SLEEP rconf) = true ->
  (k < n)%nat ->
  (forall i, (i < k)%nat ->
     exists r', provider e (i + posts w) req = PostReturns r' /\ status_code r' <> 200) ->
  provider e (k + posts w) req = PostReturns r ->
  status_code r = 200 ->
  helper e w =
  (outcome_of_path (output_tmp e (tmps w)),
   final_world e out r (after_attempts w (S k) d req)).
Proof.
  intros Hd Hk Hall Hlast H200.
  destruct (post_loop_retries rconf e _ (request_headers rconf) text d Hd k (n - k)%nat
              (TTS_API_RETRY_ATTEMPTS rconf) None w ltac:(unfold n in *; lia) Hall)
    as [resp' Hloop].
  replace (k + (n - k))%nat with n in Hloop by lia.
  destruct (n - k)%nat as [|fuel] eqn:Hfuel; [lia|].
  rewrite (post_loop_break rconf e _ (request_headers rconf) text d Hd fuel _ resp' _ r)
    in Hloop.
  - rewrite after_attempts_add in Hloop.
    replace (k + 1)%nat with (S k) in Hloop by lia.
    apply (helper_after_break rconf e text voice_code out rad tf) in Hloop.
    + exact Hloop.
    + unfold n in *. lia.
  - unfold n in *. lia.
  - simpl. exact Hlast.
  - exact H200.
Qed.

(** The budget is respected whatever the provider does: a call makes some
    [k] POSTs, no more than the attempt count, each right after a sleep of
    the configured delay, and nothing else is traced but the start of the
    child process. *)
Theorem post_budget_respected w :
  let w' := snd (helper e w) in
  exists k, (k <= n)%nat
    /\ posts w' = (k + posts w)%nat
    /\ (trace w' = trace w ++ attempts_trace k d req
        \/ exists argv, trace w' = trace w ++ attempts_trace k d req ++ [Popen argv]).
Proof.
  cbv zeta.
  assert (Hloop : forall o w1,
            post_loop rconf n (request_url (ELEVEN_LABS_VOICE_ID rconf))
              (request_headers rconf) text d (TTS_API_RETRY_ATTEMPTS rconf) None e w
            = (o, w1) ->
            exists k, (k <= n)%nat /\ w1 = after_attempts w k d req).
  { intros o w1 H. apply post_loop_bounded in H. exact H. }
  destruct (helper_cases rconf e text voice_code out rad tf w)
    as [(x & w1 & Hl & Hh) | [(a & resp & w1 & Hl & _ & Hh) |
        (a & r & w1 & m & Hl & _ & _ & _ & _ & Hh)]];
    unfold helper; rewrite Hh; cbn [snd];
    destruct (Hloop _ _ Hl) as (k & Hk & ->); exists k; split; try exact Hk.
  - split; [reflexivity | left; reflexivity].
  - split; [reflexivity | left; reflexivity].
  - split; [reflexivity|]. right. eexists. unfold final_world. cbn [trace after_attempts].
    rewrite <- app_assoc. reflexivity.
Qed.

(** A call that fails before a 200 answer touches no file: unless the
    exception is the one of the final decoding, the files and the count of
    temporary files are as before the call. *)
Theorem loop_failure_touches_no_file w x :
  fst (helper e w) = Raise x ->
  x <> ValueError "string size must be a multiple of element size" ->
  files (snd (helper e w)) = files w /\ tmps (snd (helper e w)) = tmps w.
Proof.
  intros Hx Hne.
  destruct (helper_cases rconf e text voice_code out rad tf w)
    as [(x0 & w1 & Hl & Hh) | [(a & resp & w1 & Hl & _ & Hh) |
        (a & r & w1 & m & Hl & _ & _ & _ & _ & Hh)]];
    unfold helper in *; rewrite Hh in *; cbn [fst snd] in *.
  - apply post_loop_frame in Hl. destruct Hl as (Hf & Ht & _). auto.
  - apply post_loop_frame in Hl. destruct Hl as (Hf & Ht & _). auto.
  - unfold outcome_of_path in Hx. destruct (int16_items _); [discriminate|].
    injection Hx as <-. contradiction.
Qed.

(** The helper writes at most three paths: a path that is neither
    [output_file_path] nor one of the two temporary paths, and that the
    child process leaves alone, holds after the call what it held before,
    however the call ends. *)
Theorem other_files_untouched w (path : string) :
  out <> Some path ->
  path <> output_tmp e (tmps w) ->
  path <> input_tmp e (tmps w) ->
  (forall fs rc fs',
     child e (ffmpeg_argv (input_tmp e (tmps w)) (output_tmp e (tmps w))) fs = Exits rc fs' ->
     fs' !! path = fs !! path) ->
  files (snd (helper e w)) !! path = files w !! path.
Proof.
  intros Hout Ho Hi Hchild.
  destruct (helper_cases rconf e text voice_code out rad tf w)
    as [(x0 & w1 & Hl & Hh) | [(a & resp & w1 & Hl & _ & Hh) |
        (a & r & w1 & m & Hl & _ & _ & _ & _ & Hh)]];
    unfold helper; rewrite Hh; cbn [snd];
    apply post_loop_frame in Hl; destruct Hl as (Hf & Ht & _).
  - rewrite Hf. reflexivity.
  - rewrite Hf. reflexivity.
  - unfold final_world. cbn [files]. rewrite Ht.
    assert (Hstaged :
      files_staged e (tmps w) r (files_saved out r (files w1)) !! path = files w !! path).
    { unfold files_staged. rewrite !lookup_insert_ne by congruence.
      unfold files_saved. destruct out as [p|].
      - rewrite lookup_insert_ne by congruence. rewrite Hf. reflexivity.
      - rewrite Hf. reflexivity. }
    unfold files_transcoded.
    destruct (child e _ _) as [msg | rc fs'] eqn:Hc.
    + exact Hstaged.
    + rewrite (Hchild _ _ _ Hc). exact Hstaged.
Qed.

End HelperEdges.

Lemma no_budget_no_post_witness :
  Demo.call (Demo.rconf (PyStr "v1") 0) (Some "/out.wav")
    (Demo.environment 0 Demo.stems_tmp Demo.ffmpeg_works)
  = (Raise (ValueError "All API requests returned status code != 200"), initial ∅).
Proof.
  apply (no_budget_no_post (Demo.rconf (PyStr "v1") 0)
           (Demo.environment 0 Demo.stems_tmp Demo.ffmpeg_works)
           "hello" "eng-USA" (Some "/out.wav") true None (initial ∅)).
  simpl. lia.
Defined.

Lemma post_exception_is_fatal_witness :
  Demo.call (Demo.rconf (PyStr "v1") 5) (Some "/out.wav")
    {| provider := fun i _ => if (i <? 1)%nat then PostReturns Demo.busy
                              else PostRaises (OtherException "Connection refused");
       tmp_stem := Demo.stems_tmp;
       child := Demo.ffmpeg_works |}
  = (Raise (ValueError
              "Unexpected exception on HTTP POST. Are you offline? : Connection refused"),
     {| files := ∅;
        trace := [Sleep 1; Post (Demo.hello "v1"); Sleep 1; Post (Demo.hello "v1")];
        posts := 2;
        tmps := 0 |}).
Proof.
  apply (post_exception_is_fatal (Demo.rconf (PyStr "v1") 5)
           {| provider := fun i _ => if (i <? 1)%nat then PostReturns Demo.busy
                                     else PostRaises (OtherException "Connection refused");
              tmp_stem := Demo.stems_tmp;
              child := Demo.ffmpeg_works |}
           "hello" "eng-USA" (Some "/out.wav") true None (initial ∅) 1%nat
           (OtherException "Connection refused")).
  - reflexivity.
  - simpl. lia.
  - intros i Hi. exists Demo.busy. assert (i = 0%nat) as -> by lia.
    split; [reflexivity | simpl; lia].
  - reflexivity.
Defined.

Lemma first_200_ends_loop_witness :
  let e := Demo.environment 1 Demo.stems_tmp Demo.ffmpeg_works in
  let run := Demo.call (Demo.rconf (PyStr "v1") 5) None e in
  run = (outcome_of_path "/tmp/tmpq7x2k9ab.wav",
         final_world e None Demo.served
           (after_attempts (initial ∅) 2 1 (Demo.hello "v1")))
  /\ posts (snd run) = 2%nat.
Proof.
  cbv zeta. split; [|vm_compute; reflexivity].
  apply (first_200_ends_loop (Demo.rconf (PyStr "v1") 5)
           (Demo.environment 1 Demo.stems_tmp Demo.ffmpeg_works)
           "hello" "eng-USA" None true None (initial ∅) 1%nat Demo.served).
  - reflexivity.
  - simpl. lia.
  - intros i Hi. exists Demo.busy. assert (i = 0%nat) as -> by lia.
    split; [reflexivity | simpl; lia].
  - reflexivity.
  - reflexivity.
Defined.

Lemma loop_failure_touches_no_file_witness :
  let run := Demo.call (Demo.rconf (PyStr "v1") 2) (Some "/out.wav")
               {| provider := Demo.provider_busy; tmp_stem := Demo.stems_tmp;
                  child := Demo.ffmpeg_works |} in
  fst run = Raise (ValueError "All API requests returned status code != 200")
  /\ files (snd run) = ∅ /\ tmps (snd run) = 0%nat.
Proof.
  cbv zeta. split; [vm_compute; reflexivity|].
  apply (loop_failure_touches_no_file (Demo.rconf (PyStr "v1") 2)
           {| provider := Demo.provider_busy; tmp_stem := Demo.stems_tmp;
              child := Demo.ffmpeg_works |}
           "hello" "eng-USA" (Some "/out.wav") true None (initial ∅)
           (ValueError "All API requests returned status code != 200")).
  - vm_compute. reflexivity.
  - discriminate.
Defined.

Lemma other_files_untouched_witness :
  let e := Demo.environment 0 Demo.stems_tmp Demo.ffmpeg_works in
  let w := initial {["/keep.wav" := [x2a]]} in
  files (snd (_synthesize_single_python_helper (Demo.rconf (PyStr "v1") 1)
                "hello" "eng-USA" (Some "/out.wav") true None e w)) !! "/keep.wav"
  = files w !! "/keep.wav"
  /\ files w !! "/keep.wav" = Some [x2a].
Proof.
  cbv zeta. split; [|vm_compute; reflexivity].
  apply (other_files_untouched (Demo.rconf (PyStr "v1") 1)
           (Demo.environment 0 Demo.stems_tmp Demo.ffmpeg_works)
           "hello" "eng-USA" (Some "/out.wav") true None
           (initial {["/keep.wav" := [x2a]]}) "/keep.wav").
  - discriminate.
  - vm_compute. discriminate.
  - vm_compute. discriminate.
  - intros fs rc fs' Hc. unfold Demo.environment, Demo.ffmpeg_works in Hc.
    cbn [child] in Hc. injection Hc as _ <-.
    apply lookup_insert_ne. vm_compute. discriminate.
Defined.

Lemma temporary_files_remain_witness :
  let e := Demo.environment 0 Demo.stems_tmp Demo.ffmpeg_fails in
  let run := Demo.call (Demo.rconf (PyStr "v1") 1) None e in
  is_Some (files (snd run) !! "/tmp/tmpq7x2k9ab.wav")
  /\ is_Some (files (snd run) !! "/tmp/tmpw4m8z1cd.wav").
Proof.
  cbv zeta.
  eapply (temporary_files_remain (Demo.rconf (PyStr "v1") 1)
            (Demo.environment 0 Demo.stems_tmp Demo.ffmpeg_fails)
            "hello" "eng-USA" None true None (initial ∅)).
  - vm_compute. reflexivity.
  - intros argv fs rc fs' p Hc. unfold Demo.environment, Demo.ffmpeg_fails in Hc.
    cbn [child] in Hc. injection Hc as _ <-. intros H. exact H.
Defined.

(** ** More on the returned tuple *)

Lemma length_bytes_of_string (s : string) :
  length (Bytes.of_string s) = String.length s.
Proof.
  unfold Bytes.of_string. induction s as [|c s IH]; [reflexivity|].
  cbn. f_equal. exact IH.
Qed.

(** A text has no more characters than its encoding has bytes, and as many
    when it is an ASCII text. *)
Lemma py_len_le (s : string) : (py_len s <= String.length s)%nat.
Proof.
  induction s as [|c s IH]; cbn [py_len String.length]; [lia|].
  destruct (is_continuation c); lia.
Qed.

Lemma py_len_ascii (s : string) :
  is_ascii_text s = true -> py_len s = String.length s.
Proof.
  induction s as [|c s IH]; cbn [py_len String.length is_ascii_text]; [reflexivity|].
  intros H. apply andb_true_iff in H. destruct H as [Hc Hs].
  rewrite (IH Hs). unfold is_continuation.
  apply N.ltb_lt in Hc.
  destruct (128 <=? N_of_ascii c)%N eqn:Hge; [apply N.leb_le in Hge; lia|].
  reflexivity.
Qed.

Lemma int16_items_even (bs : list byte) :
  is_Some (int16_items bs) <-> Nat.even (length bs) = true.
Proof.
  induction bs as [| a | lo hi rest IH] using pairs_ind.
  - split; [reflexivity | intros _; eexists; reflexivity].
  - split; [intros [zs H]; discriminate | discriminate].
  - cbn [int16_items length Nat.even]. rewrite <- IH.
    destruct (int16_items rest) as [zs|].
    + split; intros _; eexists; reflexivity.
    + split; intros [zs H]; discriminate.
Qed.

Lemma outcome_of_path_returns (path : string) :
  (exists res, outcome_of_path path = Ok res)
  <-> Nat.even (length (Bytes.of_string path)) = true.
Proof.
  rewrite <- int16_items_even. unfold outcome_of_path.
  destruct (int16_items (Bytes.of_string path)) as [zs|].
  - split; intros _; eexists; reflexivity.
  - split; [intros [res H]; discriminate | intros [zs H]; discriminate].
Qed.

Section Returned.

Variable rconf : RuntimeConfiguration.
Variable e : env.
Variables (text voice_code : string) (out : option string).
Variables (rad : bool) (tf : option string).

Let req : request :=
  request_of rconf (request_url (ELEVEN_LABS_VOICE_ID rconf)) (request_headers rconf) text.
Let n : nat := Z.to_nat (TTS_API_RETRY_ATTEMPTS rconf).
Let helper : M synthesis :=
  _synthesize_single_python_helper rconf text voice_code out rad tf.

(** The returned tuple and the output path: the flag is [True]; there is one
    sample for every two bytes of the encoding of the path; the duration is
    the binary64 quotient of half the number of characters of the path by
    the returned sample rate.  So the path has at most two characters for
    every sample, and exactly two when it is an ASCII path. *)
Theorem returned_tuple_consistent w res :
  fst (helper e w) = Ok res ->
  let path := output_tmp e (tmps w) in
  res.1 = true
  /\ length (Bytes.of_string path) = (2 * length (audio_samples_of res))%nat
  /\ audio_length_of res =
       Float.div
         (Float.div (Float.of_Z (Z.of_nat (py_len path))) (Float.of_Z 2))
         (Float.of_Z (audio_sample_rate_of res))
  /\ (py_len path <= 2 * length (audio_samples_of res))%nat
  /\ (is_ascii_text path = true ->
      py_len path = (2 * length (audio_samples_of res))%nat).
Proof.
  intros H path. apply helper_result_from_path in H. fold path in H.
  unfold outcome_of_path in H.
  destruct (int16_items _) as [items|] eqn:Hitems; [|discriminate].
  injection H as <-.
  apply int16_items_length in Hitems.
  unfold audio_samples_of, audio_length_of, audio_sample_rate_of, normalize, TimeValue.
  cbn [fst snd]. rewrite length_map.
  split; [reflexivity|]. split; [exact Hitems|]. split; [reflexivity|].
  rewrite length_bytes_of_string in Hitems.
  split.
  - pose proof (py_len_le path). lia.
  - intros Hascii. rewrite (py_len_ascii path Hascii). exact Hitems.
Qed.

(** Once a 200 answer has come within the budget, whether the call returns
    is decided by the output path alone: it returns when the encoding of
    the path has an even number of bytes, and raises otherwise. *)
Theorem returns_iff_even_byte_count w k r :
  Qle_bool 0 (TTS_API_SLEEP rconf) = true ->
  (k < n)%nat ->
  (forall i, (i < k)%nat ->
     exists r', provider e (i + posts w) req = PostReturns r' /\ status_code r' <> 200) ->
  provider e (k + posts w) req = PostReturns r ->
  status_code r = 200 ->
  ((exists res, fst (helper e w) = Ok res)
   <-> Nat.even (length (Bytes.of_string (output_tmp e (tmps w)))) = true)
  /\ (Nat.even (length (Bytes.of_string (output_tmp e (tmps w)))) = false ->
      fst (helper e w) = Raise (ValueError "string size must be a multiple of element size")).
Proof.
  intros Hd Hk Hall Hlast H200.
  unfold helper.
  rewrite (first_200_ends_loop rconf e text voice_code out rad tf w k r Hd Hk Hall Hlast H200).
  cbn [fst]. split; [apply outcome_of_path_returns|].
  intros Hodd. unfold outcome_of_path.
  destruct (int16_items _) as [zs|] eqn:Hitems; [|reflexivity].
  assert (Heven : Nat.even (length (Bytes.of_string (output_tmp e (tmps w)))) = true).
  { apply int16_items_even. rewrite Hitems. eauto. }
  congruence.
Qed.

End Returned.

(** Two calls that return and whose output temporary files have the same
    path return the same tuple, whatever the configurations, the texts, the
    provider's answers, the child processes and the files. *)
Theorem result_from_output_path_only
    rconf1 e1 text1 vc1 out1 rad1 tf1 w1 res1
    rconf2 e2 text2 vc2 out2 rad2 tf2 w2 res2 :
  fst (_synthesize_single_python_helper rconf1 text1 vc1 out1 rad1 tf1 e1 w1) = Ok res1 ->
  fst (_synthesize_single_python_helper rconf2 text2 vc2 out2 rad2 tf2 e2 w2) = Ok res2 ->
  output_tmp e1 (tmps w1) = output_tmp e2 (tmps w2) ->
  res1 = res2.
Proof.
  intros H1 H2 Hpath.
  apply helper_result_from_path in H1. apply helper_result_from_path in H2.
  rewrite Hpath in H1. congruence.
Qed.

Lemma returned_tuple_consistent_witness :
  let e := Demo.environment 0 Demo.stems_accent Demo.ffmpeg_works in
  let run := Demo.call (Demo.rconf (PyStr "v1") 1) None e in
  exists res, fst run = Ok res
    /\ py_len (output_tmp e 0) = 47%nat
    /\ length (Bytes.of_string (output_tmp e 0)) = 48%nat
    /\ length (audio_samples_of res) = 24%nat
    /\ length (Bytes.of_string (output_tmp e 0)) = (2 * length (audio_samples_of res))%nat
    /\ audio_length_of res =
         Float.div (Float.div (Float.of_Z 47) (Float.of_Z 2))
           (Float.of_Z (audio_sample_rate_of res))
    /\ audio_length_of res = S754_finite false 6773413839565226 (-62).
Proof.
  cbv zeta. eexists. split; [vm_compute; reflexivity|].
  destruct (returned_tuple_consistent (Demo.rconf (PyStr "v1") 1)
              (Demo.environment 0 Demo.stems_accent Demo.ffmpeg_works)
              "hello" "eng-USA" None true None (initial ∅) _
              ltac:(vm_compute; reflexivity)) as (_ & Hbytes & Hdur & _ & _).
  split; [vm_compute; reflexivity|]. split; [vm_compute; reflexivity|].
  split; [vm_compute; reflexivity|]. split; [exact Hbytes|].
  split; [exact Hdur | vm_compute; reflexivity].
Defined.

Lemma returns_iff_even_byte_count_witness :
  (exists res,
     fst (Demo.call (Demo.rconf (PyStr "v1") 3) None
            (Demo.environment 2 Demo.stems_tmp Demo.ffmpeg_works)) = Ok res)
  /\ (exists res,
        fst (Demo.call (Demo.rconf (PyStr "v1") 3) None
               (Demo.environment 2 Demo.stems_accent Demo.ffmpeg_works)) = Ok res)
  /\ fst (Demo.call (Demo.rconf (PyStr "v1") 3) None
            (Demo.environment 2 Demo.stems_windows Demo.ffmpeg_works))
     = Raise (ValueError "string size must be a multiple of element size").
Proof.
  split; [|split].
  - apply (proj1 (returns_iff_even_byte_count (Demo.rconf (PyStr "v1") 3)
             (Demo.environment 2 Demo.stems_tmp Demo.ffmpeg_works)
             "hello" "eng-USA" None true None (initial ∅) 2%nat Demo.served
             eq_refl ltac:(simpl; lia)
             ltac:(intros i Hi; exists Demo.busy;
                   destruct i as [|[|i]]; [split; [reflexivity | simpl; lia] ..| lia])
             eq_refl eq_refl)).
    reflexivity.
  - apply (proj1 (returns_iff_even_byte_count (Demo.rconf (PyStr "v1") 3)
             (Demo.environment 2 Demo.stems_accent Demo.ffmpeg_works)
             "hello" "eng-USA" None true None (initial ∅) 2%nat Demo.served
             eq_refl ltac:(simpl; lia)
             ltac:(intros i Hi; exists Demo.busy;
                   destruct i as [|[|i]]; [split; [reflexivity | simpl; lia] ..| lia])
             eq_refl eq_refl)).
    reflexivity.
  - apply (proj2 (returns_iff_even_byte_count (Demo.rconf (PyStr "v1") 3)
             (Demo.environment 2 Demo.stems_windows Demo.ffmpeg_works)
             "hello" "eng-USA" None true None (initial ∅) 2%nat Demo.served
             eq_refl ltac:(simpl; lia)
             ltac:(intros i Hi; exists Demo.busy;
                   destruct i as [|[|i]]; [split; [reflexivity | simpl; lia] ..| lia])
             eq_refl eq_refl)).
    reflexivity.
Defined.

Lemma result_from_output_path_only_witness :
  exists res,
    fst (Demo.call (Demo.rconf (PyStr "v1") 1) None
           (Demo.environment 0 Demo.stems_tmp Demo.ffmpeg_works)) = Ok res
    /\ fst (_synthesize_single_python_helper (Demo.rconf PyNone 4) "another text" "cym"
              (Some "/out.wav") true None
              (Demo.environment 3 Demo.stems_tmp Demo.ffmpeg_missing)
              (initial {["/keep.wav" := [x2a]]})) = Ok res.
Proof.
  eexists. split; [vm_compute; reflexivity|].
  eassert (H2 : fst (_synthesize_single_python_helper (Demo.rconf PyNone 4) "another text"
                       "cym" (Some "/out.wav") true None
                       (Demo.environment 3 Demo.stems_tmp Demo.ffmpeg_missing)
                       (initial {["/keep.wav" := [x2a]]})) = Ok _)
    by (vm_compute; reflexivity).
  rewrite H2. apply f_equal. symmetry.
  eapply (result_from_output_path_only
            (Demo.rconf (PyStr "v1") 1)
            (Demo.environment 0 Demo.stems_tmp Demo.ffmpeg_works)
            "hello" "eng-USA" None true None (initial ∅) _
            (Demo.rconf PyNone 4)
            (Demo.environment 3 Demo.stems_tmp Demo.ffmpeg_missing)
            "another text" "cym" (Some "/out.wav") true None
            (initial {["/keep.wav" := [x2a]]}) _).
  - vm_compute. reflexivity.
  - exact H2.
  - reflexivity.
Defined.

(** ** The two tables and the sorted listing *)

(** The keys of a dict display are the keys of its entries. *)
Lemma dict_display_key (entries : list (string * string)) (k : string) :
  is_Some (dict_display entries !! k) <-> k ∈ entries.*1.
Proof.
  unfold dict_display. rewrite <- not_eq_None_Some.
  rewrite <- not_elem_of_list_to_map. rewrite fmap_reverse, elem_of_reverse.
  split; [|tauto]. intros H. destruct (decide (k ∈ entries.*1)); tauto.
Qed.

(** An entry of a dict display is what its key maps to when no later entry
    has the key. *)
Lemma dict_display_lookup_at (entries : list (string * string)) i k v :
  entries !! i = Some (k, v) ->
  k ∉ (drop (S i) entries).*1 ->
  dict_display entries !! k = Some v.
Proof.
  intros Hi Hlater. unfold dict_display.
  rewrite <- (take_drop_middle entries i (k, v) Hi).
  rewrite reverse_app, reverse_cons, <- app_assoc.
  rewrite list_to_map_app. rewrite lookup_union_r.
  - cbn. apply lookup_insert_eq.
  - apply not_elem_of_list_to_map. rewrite fmap_reverse, elem_of_reverse. exact Hlater.
Qed.

Lemma table_keys_permutation L :
  (CODE_TO_HUMAN_entries L).*1 ≡ₚ (LANGUAGE_TO_VOICE_CODE_entries L).*1.
Proof.
  unfold CODE_TO_HUMAN_entries, LANGUAGE_TO_VOICE_CODE_entries. cbn [fmap list_fmap fst].
  do 22 apply perm_skip. apply perm_swap.
Qed.

(** The two tables have the same keys: a code has a human-readable name
    exactly when it has a voice, whatever the values of the [Language]
    attributes. *)
Theorem tables_same_codes L (code : string) :
  is_Some (CODE_TO_HUMAN L !! code) <-> is_Some (LANGUAGE_TO_VOICE_CODE L !! code).
Proof.
  unfold CODE_TO_HUMAN, LANGUAGE_TO_VOICE_CODE. rewrite !dict_display_key.
  rewrite (table_keys_permutation L). reflexivity.
Qed.

Ltac not_among_literals :=
  let H := fresh in
  cbn [drop fmap list_fmap fst]; intros H;
  repeat (apply elem_of_cons in H; destruct H as [H | H]; [discriminate H|]);
  apply elem_of_nil in H; exact H.

(** The region codes are never shadowed: whatever the values of the
    [Language] attributes, each of the eleven region codes maps to the voice
    and to the name written beside it, and the default language is one of
    them. *)
Theorem region_codes_keep_their_entries L :
  Forall (fun kv : string * string => LANGUAGE_TO_VOICE_CODE L !! kv.1 = Some kv.2)
    [ (ENG_AUS, "Nicole"); (ENG_GBR, "Emma"); (ENG_IND, "Raveena"); (ENG_USA, "Joanna");
      (ENG_WLS, "Geraint"); (FRA_FRA, "Celine"); (FRA_CAN, "Chantal");
      (POR_BRA, "Vitoria"); (POR_PRT, "Ines"); (SPA_ESP, "Conchita");
      (SPA_USA, "Penelope") ]
  /\ Forall (fun kv : string * string => CODE_TO_HUMAN L !! kv.1 = Some kv.2)
       [ (ENG_AUS, "English (Australia)"); (ENG_GBR, "English (GB)");
         (ENG_IND, "English (India)"); (ENG_USA, "English (USA)");
         (ENG_WLS, "English (Wales)"); (FRA_CAN, "French (Canada)");
         (FRA_FRA, "French (France)"); (POR_BRA, "Portuguese (Brazil)");
         (POR_PRT, "Portuguese (Portugal)"); (SPA_ESP, "Spanish (Spain)");
         (SPA_USA, "Spanish (USA)") ]
  /\ LANGUAGE_TO_VOICE_CODE L !! DEFAULT_LANGUAGE = Some "Joanna".
Proof.
  assert (Hvoice : forall i k v,
            (17 <= i)%nat -> LANGUAGE_TO_VOICE_CODE_entries L !! i = Some (k, v) ->
            k ∉ (drop (S i) (LANGUAGE_TO_VOICE_CODE_entries L)).*1 ->
            LANGUAGE_TO_VOICE_CODE L !! k = Some v).
  { intros i k v _ Hi Hl. eapply dict_display_lookup_at; eauto. }
  assert (Hhuman : forall i k v,
            (17 <= i)%nat -> CODE_TO_HUMAN_entries L !! i = Some (k, v) ->
            k ∉ (drop (S i) (CODE_TO_HUMAN_entries L)).*1 ->
            CODE_TO_HUMAN L !! k = Some v).
  { intros i k v _ Hi Hl. eapply dict_display_lookup_at; eauto. }
  split; [|split].
  - repeat constructor; cbn [fst snd].
    + apply (Hvoice 17%nat); [lia | reflexivity | not_among_literals].
    + apply (Hvoice 18%nat); [lia | reflexivity | not_among_literals].
    + apply (Hvoice 19%nat); [lia | reflexivity | not_among_literals].
    + apply (Hvoice 20%nat); [lia | reflexivity | not_among_literals].
    + apply (Hvoice 21%nat); [lia | reflexivity | not_among_literals].
    + apply (Hvoice 22%nat); [lia | reflexivity | not_among_literals].
    + apply (Hvoice 23%nat); [lia | reflexivity | not_among_literals].
    + apply (Hvoice 24%nat); [lia | reflexivity | not_among_literals].
    + apply (Hvoice 25%nat); [lia | reflexivity | not_among_literals].
    + apply (Hvoice 26%nat); [lia | reflexivity | not_among_literals].
    + apply (Hvoice 27%nat); [lia | reflexivity | not_among_literals].
  - repeat constructor; cbn [fst snd].
    + apply (Hhuman 17%nat); [lia | reflexivity | not_among_literals].
    + apply (Hhuman 18%nat); [lia | reflexivity | not_among_literals].
    + apply (Hhuman 19%nat); [lia | reflexivity | not_among_literals].
    + apply (Hhuman 20%nat); [lia | reflexivity | not_among_literals].
    + apply (Hhuman 21%nat); [lia | reflexivity | not_among_literals].
    + apply (Hhuman 22%nat); [lia | reflexivity | not_among_literals].
    + apply (Hhuman 23%nat); [lia | reflexivity | not_among_literals].
    + apply (Hhuman 24%nat); [lia | reflexivity | not_among_literals].
    + apply (Hhuman 25%nat); [lia | reflexivity | not_among_literals].
    + apply (Hhuman 26%nat); [lia | reflexivity | not_among_literals].
    + apply (Hhuman 27%nat); [lia | reflexivity | not_among_literals].
  - apply (Hvoice 20%nat); [lia | reflexivity | not_among_literals].
Qed.

Lemma size_list_to_map_le (l : list (string * string)) :
  (size (list_to_map l : gmap string string) <= length l)%nat.
Proof.
  induction l as [|[k v] l IH]; csimpl.
  - rewrite map_size_empty. lia.
  - rewrite map_size_insert. destruct (list_to_map l !! k); simpl; lia.
Qed.

#[global] Instance str_le_total : Total str_le.
Proof. intros a b. unfold str_le. apply String.leb_total. Qed.

(** [CODE_TO_HUMAN_LIST] is in ascending order and lists the table: its
    lines are exactly the texts [code TAB name] of the entries of
    [CODE_TO_HUMAN], one line for each key. *)
Theorem CODE_TO_HUMAN_LIST_sorted_and_complete L :
  Sorted str_le (CODE_TO_HUMAN_LIST L)
  /\ (forall line : string,
        line ∈ CODE_TO_HUMAN_LIST L
        <-> exists code name : string,
              CODE_TO_HUMAN L !! code = Some name
              /\ line = (code ++ String "009"%char name)%string)
  /\ length (CODE_TO_HUMAN_LIST L) = size (CODE_TO_HUMAN L)
  /\ (length (CODE_TO_HUMAN_LIST L) <= 28)%nat.
Proof.
  unfold CODE_TO_HUMAN_LIST, py_sorted.
  pose proof (merge_sort_Permutation str_le
                (code_tab_human <$> map_to_list (CODE_TO_HUMAN L))) as Hperm.
  assert (Hlen : length (merge_sort str_le (code_tab_human <$> map_to_list (CODE_TO_HUMAN L)))
                 = size (CODE_TO_HUMAN L)).
  { rewrite Hperm, length_fmap. apply length_map_to_list. }
  split; [apply Sorted_merge_sort; apply _|]. split; [|split; [exact Hlen|]].
  - intros line. rewrite Hperm. rewrite list_elem_of_fmap. split.
    + intros ([code name] & -> & Hin). apply elem_of_map_to_list in Hin.
      exists code, name. split; [exact Hin | reflexivity].
    + intros (code & name & Hin & ->). exists (code, name).
      split; [reflexivity | apply elem_of_map_to_list; exact Hin].
  - rewrite Hlen. unfold CODE_TO_HUMAN, dict_display.
    etransitivity; [apply size_list_to_map_le|]. rewrite length_reverse. reflexivity.
Qed.
